(** * UniqysKit: block model, consensus timeouts and node coordinator

    A shallow embedding of
    - [packages/blockchain/src/block.ts] (module [Blocks]) and the earlier
      layout of the same file, whose body carries [nextValidatorSet]
      (module [LegacyBlocks]),
    - [packages/chain-core/src/consensus-engine/timeout.ts] (module
      [Timeout]),
    - the handshake, shutdown and error handlers of
      [packages/chain-core/src/node.ts] (module [Node]).

    Buffers are lists of bytes.  Heights and timestamps are integers ([Z]);
    time-outs are JavaScript numbers, i.e. binary64 floats.  A method that
    can throw returns a [Completion]. *)

From Stdlib Require Import ZArith Lia List.
From Stdlib Require Import Strings.Byte.
From Stdlib Require Import Floats.PrimFloat Floats.FloatAxioms Floats.SpecFloat.
From Stdlib Require Import QArith Qpower.
From Stdlib Require Import DecimalString DecimalNat.
From stdpp Require Import gmap strings list.

Set Warnings "-inexact-float".
Local Open Scope Z_scope.

(** ** Errors and completions *)

Record Error := mkError { message : string }.

Inductive Completion (A : Type) : Type :=
| Return (a : A)
| Throw (e : Error).
Arguments Return {A} a.
Arguments Throw {A} e.

(** ** Buffers, writers and readers *)

Abbreviation Buffer := (list byte).

#[global] Instance byte_eq_decision : EqDecision byte := Byte.byte_eq_dec.

(** A [BufferWriter] holds the bytes written so far; every write appends. *)
Abbreviation BufferWriter := (list byte).

(** Modelled from the spec: [BufferReader] of the serialize package is not
    part of the sources at hand.  The spec gives the fields of the wire in
    order, each of a fixed width; a reader is taken to hold the bytes
    still to be read and to return a value and the rest.  That a read past
    the end fails is a choice of this model, which neither the sources nor
    the spec settle; no property below rests on it. *)
Definition Reader (A : Type) : Type := Buffer -> option (A * Buffer).

Definition ret {A} (a : A) : Reader A := fun r => Some (a, r).

Definition bind {A B} (m : Reader A) (k : A -> Reader B) : Reader B :=
  fun r => match m r with
           | Some (a, r') => k a r'
           | None => None
           end.

Notation "'let*' x ':=' m 'in' k" := (bind m (fun x => k))
  (at level 10, x name, m at level 100, k at level 200).

(** Modelled from the spec: the read of a field of [n] bytes, the next [n]
    bytes of the reader. *)
Definition consume (n : nat) : Reader Buffer :=
  fun r => if decide (n <= length r)%nat then Some (take n r, drop n r) else None.

(** The interface [Serializable]: an instance method [serialize(writer)]
    and a static [deserialize(reader)]. *)
Class Serializable (A : Type) := {
  serialize_to : A -> BufferWriter -> BufferWriter;
  deserialize_from : Reader A
}.

(** The free function [serialize(x)]: a fresh writer, [x.serialize(writer)],
    and the writer's buffer. *)
Definition serialize {A} `{Serializable A} (x : A) : Buffer := serialize_to x [].

Definition byte_of_Z (z : Z) : byte :=
  default x00 (Byte.of_N (Z.to_N (z mod 256))).

Definition Z_of_byte (b : byte) : Z := Z.of_N (Byte.to_N b).

(** The [n] low-order bytes of [z], most significant first. *)
Fixpoint be_bytes (n : nat) (z : Z) : Buffer :=
  match n with
  | O => []
  | S k => byte_of_Z (Z.shiftr z (8 * Z.of_nat k)) :: be_bytes k z
  end.

(** The unsigned value of a big-endian byte string. *)
Definition be_value (bs : Buffer) : Z :=
  fold_left (fun acc b => acc * 256 + Z_of_byte b) bs 0.

(** [bs] is the big-endian unsigned 64-bit encoding of [n]: eight bytes,
    the byte at index [i] holding bits [8 * (7 - i)] to [8 * (7 - i) + 7]. *)
Definition is_uint64_be (n : Z) (bs : Buffer) : Prop :=
  length bs = 8%nat /\ be_value bs = n /\
  (forall i : nat, (i < 8)%nat ->
     Z_of_byte <$> bs !! i = Some ((n / 256 ^ Z.of_nat (7 - i)) mod 256)).

Module UInt64.

(** Modelled from the spec: [UInt64.serialize] of the serialize package is
    not part of the sources at hand.  The spec fixes big-endian integers of
    64 bits: eight bytes, most significant first.  A value outside
    [0, 2^64) keeps its low 64 bits. *)
Definition serialize (n : Z) (writer : BufferWriter) : BufferWriter :=
  writer ++ be_bytes 8 n.

(** Modelled from the spec: [UInt64.deserialize], the reader of the same
    eight bytes. *)
Definition deserialize : Reader Z :=
  let* bs := consume 8 in ret (be_value bs).

Definition valid (n : Z) : Prop := 0 <= n < 2 ^ 64.

End UInt64.

(** ** Hashes *)

Module Hash.

(** Modelled from the spec: class [Hash] of the signature package is not
    part of the sources at hand.  The spec makes it a fixed-width digest of
    a cryptographic hash, with equality. *)
Record t := mk { buffer : Buffer }.

(** Modelled from the spec: the width of a digest ([size]) and the
    cryptographic hash [Hash.fromData], both left open. *)
Class Digest := {
  size : nat;
  fromData : Buffer -> t
}.

(** Modelled from the spec: [Hash.equals] compares the digests. *)
Definition equals (a b : t) : bool := bool_decide (buffer a = buffer b).

(** Modelled from the spec: a hash is written as its [size] bytes. *)
Definition serialize (h : t) (writer : BufferWriter) : BufferWriter :=
  writer ++ buffer h.

(** Modelled from the spec: a hash is read as the next [size] bytes. *)
Definition deserialize `{Digest} : Reader t :=
  let* bs := consume size in ret (mk bs).

Definition valid `{Digest} (h : t) : Prop := length (buffer h) = size.

End Hash.

(** The interface [Hashable]: a [hash] property. *)
Class Hashable (A : Type) := { hash_of : A -> Hash.t }.

(** What the block classes need of the classes they import
    ([TransactionList], [Consensus], [ValidatorSet]): writes append, and a
    well-formed value is read back from what was written for it. *)
Class SerializableLaws (A : Type) `{Serializable A} := {
  well_formed : A -> Prop;
  serialize_to_app : forall (a : A) (writer : BufferWriter),
    serialize_to a writer = writer ++ serialize a;
  deserialize_serialize : forall (a : A) (rest : Buffer),
    well_formed a -> deserialize_from (serialize a ++ rest) = Some (a, rest)
}.

(** ** Block headers (the class is the same in both layouts) *)

Module BlockHeader.

(** [height] and [timestamp] are numbers in the source; they are integers
    here, which agrees with the source on the integers a number holds
    exactly (up to [2^53]), the heights and millisecond timestamps a chain
    has. *)
Record t := mk {
  height : Z;
  timestamp : Z;
  lastBlockHash : Hash.t;
  transactionRoot : Hash.t;
  lastBlockConsensusRoot : Hash.t;
  nextValidatorSetRoot : Hash.t;
  appStateHash : Hash.t;
  hash : Hash.t
}.

Definition serialize (this : t) (writer : BufferWriter) : BufferWriter :=
  let writer := UInt64.serialize (height this) writer in
  let writer := UInt64.serialize (timestamp this) writer in
  let writer := Hash.serialize (lastBlockHash this) writer in
  let writer := Hash.serialize (transactionRoot this) writer in
  let writer := Hash.serialize (lastBlockConsensusRoot this) writer in
  let writer := Hash.serialize (nextValidatorSetRoot this) writer in
  Hash.serialize (appStateHash this) writer.

Section WithDigest.
Context `{Hash.Digest}.

(** The constructor: the seven fields are assigned first, then [hash] is
    computed from [serialize(this)], which reads those seven only. *)
Definition new (height timestamp : Z)
    (lastBlockHash transactionRoot lastBlockConsensusRoot
     nextValidatorSetRoot appStateHash : Hash.t) : t :=
  let this := mk height timestamp lastBlockHash transactionRoot
                 lastBlockConsensusRoot nextValidatorSetRoot appStateHash
                 (Hash.mk []) in
  mk height timestamp lastBlockHash transactionRoot
     lastBlockConsensusRoot nextValidatorSetRoot appStateHash
     (Hash.fromData (serialize this [])).

Definition deserialize : Reader t :=
  let* height := UInt64.deserialize in
  let* timestamp := UInt64.deserialize in
  let* lastBlockHash := Hash.deserialize in
  let* transactionRoot := Hash.deserialize in
  let* lastBlockConsensusRoot := Hash.deserialize in
  let* nextValidatorSetRoot := Hash.deserialize in
  let* appStateHash := Hash.deserialize in
  ret (new height timestamp lastBlockHash transactionRoot
           lastBlockConsensusRoot nextValidatorSetRoot appStateHash).

#[global] Instance serializable : Serializable t :=
  {| serialize_to := serialize; deserialize_from := deserialize |}.

(** Every field within the range of its wire format. *)
Definition valid (this : t) : Prop :=
  UInt64.valid (height this) /\ UInt64.valid (timestamp this) /\
  Hash.valid (lastBlockHash this) /\ Hash.valid (transactionRoot this) /\
  Hash.valid (lastBlockConsensusRoot this) /\
  Hash.valid (nextValidatorSetRoot this) /\ Hash.valid (appStateHash this).

End WithDigest.
End BlockHeader.

(** ** [packages/blockchain/src/block.ts]: the body has two fields *)

Module Blocks.
Section Classes.
Context `{Hash.Digest}.
Context {TransactionList Consensus : Type}.
Context `{Serializable TransactionList, Hashable TransactionList}.
Context `{Serializable Consensus, Hashable Consensus}.

Record BlockBody := mkBlockBody {
  transactionList : TransactionList;
  lastBlockConsensus : Consensus
}.

Definition BlockBody_deserialize : Reader BlockBody :=
  let* transactions := deserialize_from in
  let* consensus := deserialize_from in
  ret (mkBlockBody transactions consensus).

Definition BlockBody_serialize (this : BlockBody) (writer : BufferWriter)
    : BufferWriter :=
  let writer := serialize_to (transactionList this) writer in
  serialize_to (lastBlockConsensus this) writer.

Definition BlockBody_validate (this : BlockBody) (header : BlockHeader.t)
    : Completion unit :=
  if negb (Hash.equals (BlockHeader.transactionRoot header)
                       (hash_of (transactionList this)))
  then Throw (mkError "invalid transactionRoot")
  else if negb (Hash.equals (BlockHeader.lastBlockConsensusRoot header)
                            (hash_of (lastBlockConsensus this)))
  then Throw (mkError "invalid lastBlockConsensusHash")
  else Return tt.

Record Block := mkBlock {
  header : BlockHeader.t;
  body : BlockBody;
  hash : Hash.t
}.

(** The constructor of [Block]. *)
Definition Block_new (header : BlockHeader.t) (body : BlockBody) : Block :=
  mkBlock header body (BlockHeader.hash header).

Definition Block_construct (height timestamp : Z)
    (lastBlockHash nextValidatorSet appStateHash : Hash.t)
    (transactions : TransactionList) (lastBlockConsensus' : Consensus)
    : Block :=
  let body := mkBlockBody transactions lastBlockConsensus' in
  let header :=
    BlockHeader.new height timestamp lastBlockHash
      (hash_of (transactionList body))
      (hash_of (lastBlockConsensus body))
      nextValidatorSet appStateHash in
  Block_new header body.

Definition Block_deserialize : Reader Block :=
  let* header := BlockHeader.deserialize in
  let* body := BlockBody_deserialize in
  ret (Block_new header body).

Definition Block_serialize (this : Block) (writer : BufferWriter)
    : BufferWriter :=
  let writer := BlockHeader.serialize (header this) writer in
  BlockBody_serialize (body this) writer.

Definition Block_validate (this : Block) : Completion unit :=
  BlockBody_validate (body this) (header this).

#[global] Instance BlockBody_serializable : Serializable BlockBody :=
  {| serialize_to := BlockBody_serialize;
     deserialize_from := BlockBody_deserialize |}.

#[global] Instance Block_serializable : Serializable Block :=
  {| serialize_to := Block_serialize; deserialize_from := Block_deserialize |}.

End Classes.
Arguments BlockBody : clear implicits.
Arguments Block : clear implicits.
End Blocks.

(** ** The earlier layout of [block.ts]: the body has three fields *)

Module LegacyBlocks.
Section Classes.
Context `{Hash.Digest}.
Context {TransactionList Consensus ValidatorSet : Type}.
Context `{Serializable TransactionList, Hashable TransactionList}.
Context `{Serializable Consensus, Hashable Consensus}.
Context `{Serializable ValidatorSet, Hashable ValidatorSet}.

Record BlockBody := mkBlockBody {
  transactionList : TransactionList;
  lastBlockConsensus : Consensus;
  nextValidatorSet : ValidatorSet
}.

Definition BlockBody_deserialize : Reader BlockBody :=
  let* transactions := deserialize_from in
  let* consensus := deserialize_from in
  let* validatorSet := deserialize_from in
  ret (mkBlockBody transactions consensus validatorSet).

Definition BlockBody_serialize (this : BlockBody) (writer : BufferWriter)
    : BufferWriter :=
  let writer := serialize_to (transactionList this) writer in
  let writer := serialize_to (lastBlockConsensus this) writer in
  serialize_to (nextValidatorSet this) writer.

Record Block := mkBlock {
  header : BlockHeader.t;
  body : BlockBody;
  hash : Hash.t
}.

(** The constructor of [Block]. *)
Definition Block_new (header : BlockHeader.t) (body : BlockBody) : Block :=
  mkBlock header body (BlockHeader.hash header).

Definition Block_construct (height timestamp : Z)
    (lastBlockHash appStateHash : Hash.t)
    (transactions : TransactionList) (lastBlockConsensus' : Consensus)
    (nextValidatorSet' : ValidatorSet) : Block :=
  let body :=
    mkBlockBody transactions lastBlockConsensus' nextValidatorSet' in
  let header :=
    BlockHeader.new height timestamp lastBlockHash
      (hash_of (transactionList body))
      (hash_of (lastBlockConsensus body))
      (hash_of (nextValidatorSet body))
      appStateHash in
  Block_new header body.

Definition Block_deserialize : Reader Block :=
  let* header := BlockHeader.deserialize in
  let* body := BlockBody_deserialize in
  ret (Block_new header body).

Definition Block_serialize (this : Block) (writer : BufferWriter)
    : BufferWriter :=
  let writer := BlockHeader.serialize (header this) writer in
  BlockBody_serialize (body this) writer.

Definition Block_validate (this : Block) : Completion unit :=
  if negb (Hash.equals (BlockHeader.transactionRoot (header this))
                       (hash_of (transactionList (body this))))
  then Throw (mkError "invalid transactionRoot")
  else if negb (Hash.equals (BlockHeader.lastBlockConsensusRoot (header this))
                            (hash_of (lastBlockConsensus (body this))))
  then Throw (mkError "invalid lastBlockConsensusHash")
  else if negb (Hash.equals (BlockHeader.nextValidatorSetRoot (header this))
                            (hash_of (nextValidatorSet (body this))))
  then Throw (mkError "invalid nextValidatorSetRoot")
  else Return tt.

#[global] Instance BlockBody_serializable : Serializable BlockBody :=
  {| serialize_to := BlockBody_serialize;
     deserialize_from := BlockBody_deserialize |}.

#[global] Instance Block_serializable : Serializable Block :=
  {| serialize_to := Block_serialize; deserialize_from := Block_deserialize |}.

End Classes.
Arguments BlockBody : clear implicits.
Arguments Block : clear implicits.
End LegacyBlocks.

(** ** [timeout.ts]: the time-outs of a consensus round *)

Module Timeout.

(** The builtin [Math.pow] on numbers; the language standard fixes its
    value only up to an implementation-chosen approximation, so it is left
    open here. *)
Class Math := { pow : float -> float -> float }.

Record TimeoutOptions := mkTimeoutOptions {
  proposeTimeout : float;
  proposeTimeoutIncreaseRate : float;
  prevoteTimeout : float;
  prevoteTimeoutIncreaseRate : float;
  precommitTimeout : float;
  precommitTimeoutIncreaseRate : float
}.

(** [Partial<TimeoutOptions>]: every property may be absent.  A property
    given as [undefined] is the property given as [NaN]: the options are
    private and read only by the three products below, where [undefined]
    is converted to the number [NaN]. *)
Record PartialTimeoutOptions := mkPartialTimeoutOptions {
  proposeTimeout' : option float;
  proposeTimeoutIncreaseRate' : option float;
  prevoteTimeout' : option float;
  prevoteTimeoutIncreaseRate' : option float;
  precommitTimeout' : option float;
  precommitTimeoutIncreaseRate' : option float
}.

(** The object literal [{}]. *)
Definition empty : PartialTimeoutOptions :=
  mkPartialTimeoutOptions None None None None None None.

Definition defaults : TimeoutOptions := {|
  proposeTimeout := 3000;
  proposeTimeoutIncreaseRate := 1.2;
  prevoteTimeout := 1000;
  prevoteTimeoutIncreaseRate := 1.2;
  precommitTimeout := 1000;
  precommitTimeoutIncreaseRate := 1.2
|}.

(** [Object.assign({}, defaults, options)]: a property present in
    [options] replaces the one of [defaults]. *)
Definition assign (defaults : TimeoutOptions)
    (options : PartialTimeoutOptions) : TimeoutOptions := {|
  proposeTimeout := default (proposeTimeout defaults) (proposeTimeout' options);
  proposeTimeoutIncreaseRate :=
    default (proposeTimeoutIncreaseRate defaults)
            (proposeTimeoutIncreaseRate' options);
  prevoteTimeout := default (prevoteTimeout defaults) (prevoteTimeout' options);
  prevoteTimeoutIncreaseRate :=
    default (prevoteTimeoutIncreaseRate defaults)
            (prevoteTimeoutIncreaseRate' options);
  precommitTimeout :=
    default (precommitTimeout defaults) (precommitTimeout' options);
  precommitTimeoutIncreaseRate :=
    default (precommitTimeoutIncreaseRate defaults)
            (precommitTimeoutIncreaseRate' options)
|}.

Record ConsensusTimeout := mkConsensusTimeout { options : TimeoutOptions }.

(** The constructor of [ConsensusTimeout]. *)
Definition new (options : PartialTimeoutOptions) : ConsensusTimeout :=
  mkConsensusTimeout (assign defaults options).

Section WithMath.
Context `{Math}.

Definition propose (this : ConsensusTimeout) (round : float) : float :=
  (proposeTimeout (options this)
   * pow (proposeTimeoutIncreaseRate (options this)) round)%float.

Definition prevote (this : ConsensusTimeout) (round : float) : float :=
  (prevoteTimeout (options this)
   * pow (prevoteTimeoutIncreaseRate (options this)) round)%float.

Definition precommit (this : ConsensusTimeout) (round : float) : float :=
  (precommitTimeout (options this)
   * pow (precommitTimeoutIncreaseRate (options this)) round)%float.

End WithMath.
End Timeout.

(** ** Growth of the time-outs, in binary64 and in exact arithmetic *)

Module TimeoutGrowth.

(** The formula of a time-out, [base * rate ^ round], over any numbers
    with a product and a power. *)
Definition geometric {N R : Type} (mul : N -> N -> N) (pow : N -> R -> N)
    (base rate : N) (round : R) : N :=
  mul base (pow rate round).



(** The power of exact arithmetic: a rational to a natural exponent. *)
Definition exact_pow (q : Q) (n : nat) : Q := Qpower q (Z.of_nat n).

End TimeoutGrowth.

(** ** [node.ts]: handshake, shutdown and error handlers *)

Module Protocol.
(** A protocol handle; of the class (protocol package) the node reads
    [peerId] and calls [onError], [onEnd], [start], [sendHello], [end]. *)
Record t := mk { peerId : string }.
End Protocol.

Module Hello.
(** [Message.Hello]. *)
Record t := mk { height : Z; genesis : Hash.t }.
End Hello.

Module RemoteNode.
(** [new RemoteNode(peerId, protocol, height)]. *)
Record t := mk { peerId : string; protocol : Protocol.t; height : Z }.
End RemoteNode.

Module RemoteNodeSet.

(** Modelled from the spec: class [RemoteNodeSet] (file [remote-node.ts])
    is not part of the sources at hand.  The spec makes it the set that
    tracks, per peer, the protocol handle and the reported height; it is a
    finite map from peer ids to remote nodes. *)
Abbreviation t := (gmap string RemoteNode.t).

(** Modelled from the spec: [add] registers the node under its peer id. *)
Definition add (node : RemoteNode.t) (this : t) : t :=
  <[RemoteNode.peerId node := node]> this.

(** Modelled from the spec: [delete] removes the node of that peer id. *)
Definition delete (node : RemoteNode.t) (this : t) : t :=
  base.delete (RemoteNode.peerId node) this.

(** Modelled from the spec: [get] looks a peer id up. *)
Definition get (peerId : string) (this : t) : option RemoteNode.t :=
  this !! peerId.

(** Modelled from the spec: [nodes] enumerates the registered nodes. *)
Definition nodes (this : t) : list RemoteNode.t := (map_to_list this).*2.

End RemoteNodeSet.

Module Node.

(** The calls the node makes on its collaborators, in the order made.
    [StoreClose] stands for closing the blockchain store; [node.ts] has no
    such call, the constructor is here to write the shutdown order of the
    specification down. *)
Inductive Effect :=
| ProtocolEnd (peerId : string)
| ProtocolOnEnd (peerId : string)
| NetworkStop
| NetworkDropPeer (id : string)
| ConsensusEngineStop
| SynchronizerStop
| SynchronizerNewNode
| ExecutorStop
| StoreClose
| EmitError (err : Error).

(** The part of a node the modelled methods touch: the hash of
    [blockchain.genesisBlock], the remote-node set and the calls made. *)
Record t := mk {
  genesisHash : Hash.t;
  remoteNode : gmap string RemoteNode.t;
  effects : list Effect
}.

Definition call (e : Effect) (this : t) : t :=
  mk (genesisHash this) (remoteNode this) (effects this ++ [e]).

Definition update_remoteNode
    (f : gmap string RemoteNode.t -> gmap string RemoteNode.t) (this : t)
    : t :=
  mk (genesisHash this) (f (remoteNode this)) (effects this).

(** The handler given to [network.onError] in the constructor. *)
Definition network_onError (err : Error) (this : t) : t :=
  if String.eqb (message err) "underlying socket has been closed"
  then this
  else call (EmitError err) this.

(** The handler given to [protocol.onError] in [handshake]. *)
Definition protocol_onError (err : Error) (this : t) : t :=
  if String.eqb (message err) "underlying socket has been closed"
  then this
  else call (EmitError err) this.

Definition stop (this : t) : t :=
  let this :=
    foldl (fun this node =>
             call (ProtocolEnd (Protocol.peerId (RemoteNode.protocol node)))
                  this)
          this (RemoteNodeSet.nodes (remoteNode this)) in
  let this := call NetworkStop this in
  let this := call ConsensusEngineStop this in
  let this := call SynchronizerStop this in
  call ExecutorStop this.

Definition addRemoteNode (node : RemoteNode.t) (this : t) : t :=
  let this := update_remoteNode (RemoteNodeSet.add node) this in
  call SynchronizerNewNode this.

Definition dropPeer (id : string) (this : t) : t :=
  call (NetworkDropPeer id) this.

Definition dropRemoteNode (node : RemoteNode.t) (this : t) : t :=
  let this := update_remoteNode (RemoteNodeSet.delete node) this in
  dropPeer (RemoteNode.peerId node) this.

(** The callback [hello] gives to [protocol.onEnd]. *)
Definition goodbye (node : RemoteNode.t) (this : t) : t :=
  update_remoteNode (RemoteNodeSet.delete node) this.

Definition hello (msg : Hello.t) (protocol : Protocol.t) (this : t) : t :=
  if Hash.equals (Hello.genesis msg) (genesisHash this) then
    let node :=
      RemoteNode.mk (Protocol.peerId protocol) protocol (Hello.height msg) in
    let this := addRemoteNode node this in
    call (ProtocolOnEnd (Protocol.peerId protocol)) this
  else
    dropPeer (Protocol.peerId protocol) this.

(** The shutdown order as the specification words it: protocol handles,
    engine, synchronizer, executor, store. *)
Definition stop_order_of_spec (this : t) : list Effect :=
  map (fun node => ProtocolEnd (Protocol.peerId (RemoteNode.protocol node)))
      (RemoteNodeSet.nodes (remoteNode this))
  ++ [ConsensusEngineStop; SynchronizerStop; ExecutorStop; StoreClose].

End Node.

(** ** [node.ts]: look-up of the sender, dispatch, handshake timer *)

Module NewConsensusMessage.
(** [Message.NewConsensusMessage]: of the message the node reads
    [message] only. *)
Record t (M : Type) := mk { message : M }.
Arguments mk {M} message.
Arguments message {M} t.
End NewConsensusMessage.

Module NodeHandlers.

Definition getRemoteNode (protocol : Protocol.t) (this : Node.t)
    : Completion RemoteNode.t :=
  match RemoteNodeSet.get (Protocol.peerId protocol) (Node.remoteNode this)
  with
  | Some node => Return node
  | None => Throw (mkError "Remote node disappeared")
  end.

Section Dispatch.
Context {NewBlock NewBlockHeight ConsensusMessage : Type}.

(** The one call a dispatching handler makes, with its arguments. *)
Inductive Delivery :=
| Synchronizer_newBlock (msg : NewBlock) (node : RemoteNode.t)
| Synchronizer_newBlockHeight (msg : NewBlockHeight) (node : RemoteNode.t)
| ConsensusEngine_newConsensusMessage (message : ConsensusMessage)
    (node : RemoteNode.t).

(** The handler [newBlock] of the protocol. *)
Definition newBlock (msg : NewBlock) (protocol : Protocol.t) (this : Node.t)
    : Completion Delivery :=
  match getRemoteNode protocol this with
  | Return node => Return (Synchronizer_newBlock msg node)
  | Throw e => Throw e
  end.

(** The handler [newBlockHeight] of the protocol. *)
Definition newBlockHeight (msg : NewBlockHeight) (protocol : Protocol.t)
    (this : Node.t) : Completion Delivery :=
  match getRemoteNode protocol this with
  | Return node => Return (Synchronizer_newBlockHeight msg node)
  | Throw e => Throw e
  end.

(** The handler [newConsensusMessage] of the protocol. *)
Definition newConsensusMessage
    (msg : NewConsensusMessage.t ConsensusMessage) (protocol : Protocol.t)
    (this : Node.t) : Completion Delivery :=
  match getRemoteNode protocol this with
  | Return node =>
      Return (ConsensusEngine_newConsensusMessage
                (NewConsensusMessage.message msg) node)
  | Throw e => Throw e
  end.

End Dispatch.
Arguments Delivery : clear implicits.

(** The callback [handshake] gives to [setTimeout]. *)
Definition handshake_timeout (protocol : Protocol.t) (this : Node.t)
    : Node.t :=
  match RemoteNodeSet.get (Protocol.peerId protocol) (Node.remoteNode this)
  with
  | Some _ => this
  | None => Node.dropPeer (Protocol.peerId protocol) this
  end.

(** The handler given to [synchronizer.onError] in the constructor. *)
Definition synchronizer_onError (err : Error) (this : Node.t) : Node.t :=
  Node.call (Node.EmitError err) this.

(** The handler given to [consensusEngine.onError] in the constructor. *)
Definition consensusEngine_onError (err : Error) (this : Node.t) : Node.t :=
  Node.call (Node.EmitError err) this.

(** The handler of a rejected [transactionPool.update] or
    [transactionPool.add]. *)
Definition transactionPool_catch (err : Error) (this : Node.t) : Node.t :=
  Node.call (Node.EmitError err) this.

End NodeHandlers.

(** ** The command-line sample application ([CliApp]) *)

Module CliApp.
Section WithDigest.
Context `{Hash.Digest}.
Context {Transaction : Type}.

(** The part of the application that [executeTransaction] and
    [getAppStateHash] touch. *)
Record t := mk { transactions : list Transaction }.

(** The constructor leaves [transactions] empty. *)
Definition new : t := mk [].

Definition executeTransaction (tx : Transaction) (this : t) : t :=
  mk (transactions this ++ [tx]).

(** The template literal of a length: its decimal digits. *)
Definition decimal (n : nat) : Buffer :=
  String.list_byte_of_string (NilEmpty.string_of_uint (Nat.to_uint n)).

Definition getAppStateHash (this : t) : Hash.t :=
  Hash.fromData (decimal (length (transactions this))).

End WithDigest.
Arguments t : clear implicits.
End CliApp.

(** ** Small instances to run the definitions on

    A digest of 32 bytes that is not cryptographic (the data read as a
    big-endian number, reduced to 256 bits), and a one-byte value in the
    place of a transaction list, a consensus or a validator set. *)

Module Sample.

Definition digest : Hash.Digest :=
  {| Hash.size := 32; Hash.fromData d := Hash.mk (be_bytes 32 (be_value d)) |}.

Definition byte_serializable : Serializable byte :=
  {| serialize_to b writer := writer ++ [b];
     deserialize_from :=
       let* bs := consume 1 in
       fun r => match bs with [b] => Some (b, r) | _ => None end |}.

Definition byte_hashable : Hashable byte :=
  {| hash_of b := @Hash.fromData digest [b] |}.

Definition h32 (b : byte) : Hash.t := Hash.mk (replicate 32 b).

Definition header0 : BlockHeader.t :=
  @BlockHeader.new digest 258 1541116800000
    (h32 x01) (h32 x02) (h32 x03) (h32 x04) (h32 x05).

Definition alice : RemoteNode.t :=
  RemoteNode.mk "QmAlice" (Protocol.mk "QmAlice") 7.

Definition node0 : Node.t :=
  Node.mk (h32 x01) (RemoteNodeSet.add alice ∅) [].

End Sample.

(** * Properties *)

(** ** Bytes and big-endian integers *)

Lemma Z_of_byte_range (b : byte) : 0 <= Z_of_byte b < 256.
Proof.
  unfold Z_of_byte. pose proof (Byte.to_N_bounded b). lia.
Qed.

Lemma Z_of_byte_of_Z (z : Z) : Z_of_byte (byte_of_Z z) = z mod 256.
Proof.
  unfold Z_of_byte, byte_of_Z.
  assert (Hr : 0 <= z mod 256 < 256) by (apply Z.mod_pos_bound; lia).
  destruct (Byte.of_N (Z.to_N (z mod 256))) as [b|] eqn:E; simpl.
  - apply Byte.to_of_N in E. rewrite E. lia.
  - apply Byte.of_N_None_iff in E. lia.
Qed.

Lemma length_be_bytes (n : nat) (z : Z) : length (be_bytes n z) = n.
Proof. induction n as [|k IH]; simpl; congruence. Qed.

Lemma fold_be_bytes (n : nat) (z acc : Z) :
  fold_left (fun a b => a * 256 + Z_of_byte b) (be_bytes n z) acc
  = acc * 256 ^ Z.of_nat n + z mod 256 ^ Z.of_nat n.
Proof.
  revert acc. induction n as [|k IH]; intros acc.
  - simpl. rewrite Z.mod_1_r. lia.
  - cbn [be_bytes fold_left]. rewrite IH, Z_of_byte_of_Z.
    rewrite Z.shiftr_div_pow2 by lia.
    replace (2 ^ (8 * Z.of_nat k)) with (256 ^ Z.of_nat k)
      by (rewrite Z.pow_mul_r by lia; reflexivity).
    replace (Z.of_nat (S k)) with (Z.of_nat k + 1) by lia.
    rewrite Z.pow_add_r by lia. change (256 ^ 1) with 256.
    assert (Hp : 0 < 256 ^ Z.of_nat k) by (apply Z.pow_pos_nonneg; lia).
    rewrite (Z.rem_mul_r z (256 ^ Z.of_nat k) 256) by lia.
    lia.
Qed.

Lemma be_value_be_bytes (n : nat) (z : Z) :
  be_value (be_bytes n z) = z mod 256 ^ Z.of_nat n.
Proof. unfold be_value. rewrite fold_be_bytes. lia. Qed.

Lemma lookup_be_bytes (n i : nat) (z : Z) :
  (i < n)%nat ->
  be_bytes n z !! i = Some (byte_of_Z (z / 256 ^ Z.of_nat (n - 1 - i))).
Proof.
  revert i. induction n as [|k IH]; intros i Hi; [lia|].
  destruct i as [|j]; cbn [be_bytes].
  - simpl lookup. rewrite Z.shiftr_div_pow2 by lia.
    replace (S k - 1 - 0)%nat with k by lia.
    rewrite Z.pow_mul_r by lia. reflexivity.
  - simpl lookup. rewrite IH by lia.
    replace (S k - 1 - S j)%nat with (k - 1 - j)%nat by lia. reflexivity.
Qed.

(** ** Readers *)

Lemma consume_app (bs rest : Buffer) :
  consume (length bs) (bs ++ rest) = Some (bs, rest).
Proof.
  unfold consume. rewrite decide_True by (rewrite length_app; lia).
  by rewrite take_app_length, drop_app_length.
Qed.

Lemma UInt64_deserialize_serialize (n : Z) (rest : Buffer) :
  UInt64.deserialize (be_bytes 8 n ++ rest) = Some (n mod 2 ^ 64, rest).
Proof.
  unfold UInt64.deserialize, bind, ret.
  pose proof (consume_app (be_bytes 8 n) rest) as Hc.
  rewrite length_be_bytes in Hc. rewrite Hc, be_value_be_bytes.
  reflexivity.
Qed.

Lemma Hash_deserialize_serialize `{Hash.Digest} (h : Hash.t) (rest : Buffer) :
  Hash.valid h -> Hash.deserialize (Hash.buffer h ++ rest) = Some (h, rest).
Proof.
  intros Hv. unfold Hash.deserialize, bind, ret. rewrite <- Hv.
  rewrite consume_app. by destruct h.
Qed.

Lemma Hash_equals_eq (a b : Hash.t) : Hash.equals a b = true <-> a = b.
Proof.
  unfold Hash.equals. rewrite bool_decide_eq_true.
  destruct a, b; simpl. split; congruence.
Qed.

Lemma Hash_equals_refl (a : Hash.t) : Hash.equals a a = true.
Proof. by apply Hash_equals_eq. Qed.

(** ** Block headers *)

Lemma BlockHeader_serialize_spec (h : BlockHeader.t) (writer : BufferWriter) :
  BlockHeader.serialize h writer
  = writer ++ be_bytes 8 (BlockHeader.height h)
      ++ be_bytes 8 (BlockHeader.timestamp h)
      ++ Hash.buffer (BlockHeader.lastBlockHash h)
      ++ Hash.buffer (BlockHeader.transactionRoot h)
      ++ Hash.buffer (BlockHeader.lastBlockConsensusRoot h)
      ++ Hash.buffer (BlockHeader.nextValidatorSetRoot h)
      ++ Hash.buffer (BlockHeader.appStateHash h).
Proof.
  unfold BlockHeader.serialize, UInt64.serialize, Hash.serialize.
  by rewrite <- !app_assoc.
Qed.

Lemma BlockHeader_serialize_app (h : BlockHeader.t) (writer : BufferWriter) :
  BlockHeader.serialize h writer = writer ++ BlockHeader.serialize h [].
Proof. by rewrite !BlockHeader_serialize_spec. Qed.

Section HeaderRoundTrip.
Context `{Hash.Digest}.

(** The hash of a constructed header is the digest of its own bytes: the
    serialization does not read the [hash] field. *)
Lemma BlockHeader_new_hash (height timestamp : Z)
    (lastBlockHash transactionRoot lastBlockConsensusRoot
     nextValidatorSetRoot appStateHash : Hash.t) :
  let h := BlockHeader.new height timestamp lastBlockHash transactionRoot
             lastBlockConsensusRoot nextValidatorSetRoot appStateHash in
  BlockHeader.hash h = Hash.fromData (serialize h).
Proof. reflexivity. Qed.

Lemma BlockHeader_deserialize_serialize (height timestamp : Z)
    (lastBlockHash transactionRoot lastBlockConsensusRoot
     nextValidatorSetRoot appStateHash : Hash.t) (rest : Buffer) :
  let h := BlockHeader.new height timestamp lastBlockHash transactionRoot
             lastBlockConsensusRoot nextValidatorSetRoot appStateHash in
  BlockHeader.valid h ->
  BlockHeader.deserialize (serialize h ++ rest) = Some (h, rest).
Proof.
  intros h (Hh & Ht & H1 & H2 & H3 & H4 & H5).
  unfold serialize. cbn [serialize_to BlockHeader.serializable].
  rewrite BlockHeader_serialize_spec. subst h. unfold BlockHeader.new in *.
  cbn [BlockHeader.height BlockHeader.timestamp BlockHeader.lastBlockHash
       BlockHeader.transactionRoot BlockHeader.lastBlockConsensusRoot
       BlockHeader.nextValidatorSetRoot BlockHeader.appStateHash app] in *.
  rewrite <- !app_assoc.
  unfold BlockHeader.deserialize, bind.
  rewrite !UInt64_deserialize_serialize.
  rewrite !Hash_deserialize_serialize by assumption.
  unfold UInt64.valid in *. rewrite !Z.mod_small by assumption.
  reflexivity.
Qed.

End HeaderRoundTrip.

(** ** Blocks of [packages/blockchain/src/block.ts] *)

Section BlocksRoundTrip.
Context `{Hash.Digest}.
Context {TransactionList Consensus : Type}.
Context `{Serializable TransactionList, Hashable TransactionList,
          !SerializableLaws TransactionList}.
Context `{Serializable Consensus, Hashable Consensus,
          !SerializableLaws Consensus}.

Lemma Blocks_BlockBody_serialize_spec
    (body : Blocks.BlockBody TransactionList Consensus)
    (writer : BufferWriter) :
  Blocks.BlockBody_serialize body writer
  = writer ++ serialize (Blocks.transactionList body)
      ++ serialize (Blocks.lastBlockConsensus body).
Proof.
  unfold Blocks.BlockBody_serialize.
  rewrite (serialize_to_app (Blocks.lastBlockConsensus body)).
  rewrite (serialize_to_app (Blocks.transactionList body)).
  by rewrite <- app_assoc.
Qed.

Lemma Blocks_BlockBody_deserialize_serialize
    (body : Blocks.BlockBody TransactionList Consensus) (rest : Buffer) :
  well_formed (Blocks.transactionList body) ->
  well_formed (Blocks.lastBlockConsensus body) ->
  Blocks.BlockBody_deserialize (serialize body ++ rest) = Some (body, rest).
Proof.
  intros Ht Hc. unfold serialize at 1.
  cbn [serialize_to Blocks.BlockBody_serializable].
  rewrite Blocks_BlockBody_serialize_spec. cbn [app].
  rewrite <- app_assoc.
  unfold Blocks.BlockBody_deserialize, bind, ret.
  rewrite (deserialize_serialize _ _ Ht), (deserialize_serialize _ _ Hc).
  by destruct body.
Qed.

Lemma Blocks_Block_deserialize_serialize (height timestamp : Z)
    (lastBlockHash transactionRoot lastBlockConsensusRoot
     nextValidatorSetRoot appStateHash : Hash.t)
    (body : Blocks.BlockBody TransactionList Consensus) (rest : Buffer) :
  let h := BlockHeader.new height timestamp lastBlockHash transactionRoot
             lastBlockConsensusRoot nextValidatorSetRoot appStateHash in
  let b := Blocks.Block_new h body in
  BlockHeader.valid h ->
  well_formed (Blocks.transactionList body) ->
  well_formed (Blocks.lastBlockConsensus body) ->
  Blocks.Block_deserialize (serialize b ++ rest) = Some (b, rest).
Proof.
  intros h b Hh Ht Hc. unfold serialize at 1.
  cbn [serialize_to Blocks.Block_serializable].
  unfold Blocks.Block_serialize. subst b. cbn [Blocks.header Blocks.body].
  rewrite Blocks_BlockBody_serialize_spec.
  change (BlockHeader.serialize h []) with (serialize h).
  rewrite <- !app_assoc.
  unfold Blocks.Block_deserialize, bind, ret.
  rewrite (BlockHeader_deserialize_serialize _ _ _ _ _ _ _ _ Hh).
  pose proof (Blocks_BlockBody_deserialize_serialize body rest Ht Hc) as Hb.
  unfold serialize at 1 in Hb.
  cbn [serialize_to Blocks.BlockBody_serializable] in Hb.
  rewrite Blocks_BlockBody_serialize_spec in Hb. cbn [app] in Hb.
  rewrite <- app_assoc in Hb. cbn [Blocks.body Blocks.Block_new].
  rewrite Hb. reflexivity.
Qed.

End BlocksRoundTrip.

(** ** Blocks of the earlier layout *)

Section LegacyBlocksRoundTrip.
Context `{Hash.Digest}.
Context {TransactionList Consensus ValidatorSet : Type}.
Context `{Serializable TransactionList, Hashable TransactionList,
          !SerializableLaws TransactionList}.
Context `{Serializable Consensus, Hashable Consensus,
          !SerializableLaws Consensus}.
Context `{Serializable ValidatorSet, Hashable ValidatorSet,
          !SerializableLaws ValidatorSet}.

Lemma LegacyBlocks_BlockBody_serialize_spec
    (body : LegacyBlocks.BlockBody TransactionList Consensus ValidatorSet)
    (writer : BufferWriter) :
  LegacyBlocks.BlockBody_serialize body writer
  = writer ++ serialize (LegacyBlocks.transactionList body)
      ++ serialize (LegacyBlocks.lastBlockConsensus body)
      ++ serialize (LegacyBlocks.nextValidatorSet body).
Proof.
  unfold LegacyBlocks.BlockBody_serialize.
  rewrite (serialize_to_app (LegacyBlocks.nextValidatorSet body)).
  rewrite (serialize_to_app (LegacyBlocks.lastBlockConsensus body)).
  rewrite (serialize_to_app (LegacyBlocks.transactionList body)).
  by rewrite <- !app_assoc.
Qed.

Lemma LegacyBlocks_Block_deserialize_serialize (height timestamp : Z)
    (lastBlockHash transactionRoot lastBlockConsensusRoot
     nextValidatorSetRoot appStateHash : Hash.t)
    (body : LegacyBlocks.BlockBody TransactionList Consensus ValidatorSet)
    (rest : Buffer) :
  let h := BlockHeader.new height timestamp lastBlockHash transactionRoot
             lastBlockConsensusRoot nextValidatorSetRoot appStateHash in
  let b := LegacyBlocks.Block_new h body in
  BlockHeader.valid h ->
  well_formed (LegacyBlocks.transactionList body) ->
  well_formed (LegacyBlocks.lastBlockConsensus body) ->
  well_formed (LegacyBlocks.nextValidatorSet body) ->
  LegacyBlocks.Block_deserialize (serialize b ++ rest) = Some (b, rest).
Proof.
  intros h b Hh Ht Hc Hv. unfold serialize at 1.
  cbn [serialize_to LegacyBlocks.Block_serializable].
  unfold LegacyBlocks.Block_serialize. subst b.
  cbn [LegacyBlocks.header LegacyBlocks.body LegacyBlocks.Block_new].
  rewrite LegacyBlocks_BlockBody_serialize_spec.
  change (BlockHeader.serialize h []) with (serialize h).
  rewrite <- !app_assoc.
  unfold LegacyBlocks.Block_deserialize, bind, ret.
  rewrite (BlockHeader_deserialize_serialize _ _ _ _ _ _ _ _ Hh).
  unfold LegacyBlocks.BlockBody_deserialize, bind, ret.
  rewrite (deserialize_serialize _ _ Ht), (deserialize_serialize _ _ Hc),
    (deserialize_serialize _ _ Hv).
  by destruct body.
Qed.

End LegacyBlocksRoundTrip.

(** ** Big-endian integers of 64 bits *)

Lemma be_bytes_is_uint64_be (n : Z) :
  UInt64.valid n -> is_uint64_be n (be_bytes 8 n).
Proof.
  intros Hn. repeat split.
  - rewrite be_value_be_bytes. apply Z.mod_small. exact Hn.
  - intros i Hi. rewrite lookup_be_bytes by exact Hi. simpl fmap.
    rewrite Z_of_byte_of_Z. reflexivity.
Qed.

Lemma Sample_header0_valid : @BlockHeader.valid Sample.digest Sample.header0.
Proof. repeat split; try reflexivity; vm_compute; congruence. Qed.

(** ** The claims about block headers and their bytes *)

(** C3. Serializing a block header writes exactly, in this order: the
    height and the timestamp, each as a big-endian unsigned 64-bit integer,
    then [lastBlockHash], [transactionRoot], [lastBlockConsensusRoot],
    [nextValidatorSetRoot] and [appStateHash], each as the [Hash.size]
    bytes of the hash; nothing follows (the length is the sum of the
    widths); and the header's hash is the digest of exactly these bytes. *)
Theorem BlockHeader_canonical_bytes `{Hash.Digest} (height timestamp : Z)
    (lastBlockHash transactionRoot lastBlockConsensusRoot
     nextValidatorSetRoot appStateHash : Hash.t) :
  let h := BlockHeader.new height timestamp lastBlockHash transactionRoot
             lastBlockConsensusRoot nextValidatorSetRoot appStateHash in
  BlockHeader.valid h ->
  exists height_bytes timestamp_bytes : Buffer,
    is_uint64_be height height_bytes /\
    is_uint64_be timestamp timestamp_bytes /\
    serialize h
    = height_bytes ++ timestamp_bytes
        ++ Hash.buffer lastBlockHash ++ Hash.buffer transactionRoot
        ++ Hash.buffer lastBlockConsensusRoot
        ++ Hash.buffer nextValidatorSetRoot ++ Hash.buffer appStateHash /\
    length (Hash.buffer lastBlockHash) = Hash.size /\
    length (Hash.buffer transactionRoot) = Hash.size /\
    length (Hash.buffer lastBlockConsensusRoot) = Hash.size /\
    length (Hash.buffer nextValidatorSetRoot) = Hash.size /\
    length (Hash.buffer appStateHash) = Hash.size /\
    length (serialize h) = (8 + 8 + 5 * Hash.size)%nat /\
    BlockHeader.hash h = Hash.fromData (serialize h).
Proof.
  intros h (Hh & Ht & H1 & H2 & H3 & H4 & H5).
  assert (Hs : serialize h
    = be_bytes 8 height ++ be_bytes 8 timestamp
        ++ Hash.buffer lastBlockHash ++ Hash.buffer transactionRoot
        ++ Hash.buffer lastBlockConsensusRoot
        ++ Hash.buffer nextValidatorSetRoot ++ Hash.buffer appStateHash).
  { unfold serialize. cbn [serialize_to BlockHeader.serializable].
    by rewrite BlockHeader_serialize_spec. }
  exists (be_bytes 8 height), (be_bytes 8 timestamp).
  unfold Hash.valid in *. cbn in H1, H2, H3, H4, H5.
  split; [by apply be_bytes_is_uint64_be|].
  split; [by apply be_bytes_is_uint64_be|].
  split; [exact Hs|].
  do 5 (split; [assumption|]).
  split; [|reflexivity].
  rewrite Hs, !length_app, !length_be_bytes. lia.
Qed.

Lemma BlockHeader_canonical_bytes_witness :
  @BlockHeader.valid Sample.digest Sample.header0 /\
  exists height_bytes timestamp_bytes : Buffer,
    is_uint64_be 258 height_bytes /\
    is_uint64_be 1541116800000 timestamp_bytes /\
    @serialize _ (@BlockHeader.serializable Sample.digest) Sample.header0
    = height_bytes ++ timestamp_bytes
        ++ replicate 32 x01 ++ replicate 32 x02 ++ replicate 32 x03
        ++ replicate 32 x04 ++ replicate 32 x05 /\
    length (replicate 32 x01) = 32%nat /\
    length (replicate 32 x02) = 32%nat /\
    length (replicate 32 x03) = 32%nat /\
    length (replicate 32 x04) = 32%nat /\
    length (replicate 32 x05) = 32%nat /\
    length (@serialize _ (@BlockHeader.serializable Sample.digest)
              Sample.header0) = 176%nat /\
    BlockHeader.hash Sample.header0
    = @Hash.fromData Sample.digest
        (@serialize _ (@BlockHeader.serializable Sample.digest)
           Sample.header0).
Proof.
  split; [exact Sample_header0_valid|].
  exact (@BlockHeader_canonical_bytes Sample.digest 258 1541116800000
           (Sample.h32 x01) (Sample.h32 x02) (Sample.h32 x03)
           (Sample.h32 x04) (Sample.h32 x05) Sample_header0_valid).
Defined.

(** The one-byte sample value obeys the laws; every byte is well formed. *)
Lemma Sample_byte_laws : @SerializableLaws byte Sample.byte_serializable.
Proof.
  refine {| well_formed := fun _ : byte => True |}.
  - intros a writer. reflexivity.
  - intros a rest _. reflexivity.
Defined.

(** C2. A block header that is serialized and deserialized comes back
    equal, field by field and in its hash, and hashing the bytes of the
    header read back gives the original hash; a block that is serialized
    and deserialized comes back equal as well.  The fields are within the
    range of their wire format: heights and timestamps below [2^64],
    hashes of [Hash.size] bytes, and a well-formed body. *)
Theorem BlockHeader_and_Block_round_trip `{Hash.Digest}
    {TransactionList Consensus : Type}
    `{Serializable TransactionList, Hashable TransactionList,
      !SerializableLaws TransactionList}
    `{Serializable Consensus, Hashable Consensus,
      !SerializableLaws Consensus}
    (height timestamp : Z)
    (lastBlockHash transactionRoot lastBlockConsensusRoot
     nextValidatorSetRoot appStateHash : Hash.t)
    (body : Blocks.BlockBody TransactionList Consensus) (rest : Buffer) :
  let h := BlockHeader.new height timestamp lastBlockHash transactionRoot
             lastBlockConsensusRoot nextValidatorSetRoot appStateHash in
  let b := Blocks.Block_new h body in
  BlockHeader.valid h ->
  well_formed (Blocks.transactionList body) ->
  well_formed (Blocks.lastBlockConsensus body) ->
  BlockHeader.deserialize (serialize h ++ rest) = Some (h, rest) /\
  (exists h' : BlockHeader.t,
     BlockHeader.deserialize (serialize h) = Some (h', []) /\
     BlockHeader.height h' = height /\
     BlockHeader.timestamp h' = timestamp /\
     BlockHeader.lastBlockHash h' = lastBlockHash /\
     BlockHeader.transactionRoot h' = transactionRoot /\
     BlockHeader.lastBlockConsensusRoot h' = lastBlockConsensusRoot /\
     BlockHeader.nextValidatorSetRoot h' = nextValidatorSetRoot /\
     BlockHeader.appStateHash h' = appStateHash /\
     BlockHeader.hash h' = BlockHeader.hash h /\
     Hash.fromData (serialize h') = BlockHeader.hash h) /\
  Blocks.Block_deserialize (serialize b ++ rest) = Some (b, rest) /\
  Blocks.Block_deserialize (serialize b) = Some (b, []).
Proof.
  intros h b Hh Ht Hc.
  pose proof (BlockHeader_deserialize_serialize height timestamp
                lastBlockHash transactionRoot lastBlockConsensusRoot
                nextValidatorSetRoot appStateHash) as Hrt.
  cbv zeta in Hrt. fold h in Hrt.
  pose proof (Blocks_Block_deserialize_serialize height timestamp
                lastBlockHash transactionRoot lastBlockConsensusRoot
                nextValidatorSetRoot appStateHash body) as Hbrt.
  cbv zeta in Hbrt. fold h in Hbrt. fold b in Hbrt.
  split; [exact (Hrt rest Hh)|]. split.
  - exists h. split.
    + specialize (Hrt [] Hh). by rewrite app_nil_r in Hrt.
    + repeat split.
  - split; [exact (Hbrt rest Hh Ht Hc)|].
    specialize (Hbrt [] Hh Ht Hc). by rewrite app_nil_r in Hbrt.
Qed.

Lemma BlockHeader_and_Block_round_trip_witness :
  let b := @Blocks.Block_new byte byte Sample.header0
             (Blocks.mkBlockBody x2a x07) in
  @BlockHeader.valid Sample.digest Sample.header0 /\
  @BlockHeader.deserialize Sample.digest
    (@serialize _ (@BlockHeader.serializable Sample.digest) Sample.header0
       ++ [xff])
  = Some (Sample.header0, [xff]) /\
  @Blocks.Block_deserialize Sample.digest byte byte
    Sample.byte_serializable Sample.byte_serializable
    (@serialize _
       (@Blocks.Block_serializable Sample.digest byte byte
          Sample.byte_serializable Sample.byte_serializable) b ++ [xff])
  = Some (b, [xff]).
Proof.
  pose proof (@BlockHeader_and_Block_round_trip Sample.digest byte byte
                Sample.byte_serializable Sample.byte_hashable
                Sample_byte_laws
                Sample.byte_serializable Sample.byte_hashable
                Sample_byte_laws
                258 1541116800000
                (Sample.h32 x01) (Sample.h32 x02) (Sample.h32 x03)
                (Sample.h32 x04) (Sample.h32 x05)
                (Blocks.mkBlockBody x2a x07) [xff]
                Sample_header0_valid I I) as (Hh & _ & Hb & _).
  exact (conj Sample_header0_valid (conj Hh Hb)).
Defined.

(** ** Validation, construction and identity of blocks *)

Section BlockValidation.
Context `{Hash.Digest}.
Context {TransactionList Consensus ValidatorSet : Type}.
Context `{Serializable TransactionList, Hashable TransactionList}.
Context `{Serializable Consensus, Hashable Consensus}.
Context `{Serializable ValidatorSet, Hashable ValidatorSet}.

Lemma Blocks_BlockBody_validate_cases
    (body : Blocks.BlockBody TransactionList Consensus)
    (header : BlockHeader.t) :
  (BlockHeader.transactionRoot header
     <> hash_of (Blocks.transactionList body) /\
   Blocks.BlockBody_validate body header
     = Throw (mkError "invalid transactionRoot")) \/
  (BlockHeader.transactionRoot header
     = hash_of (Blocks.transactionList body) /\
   BlockHeader.lastBlockConsensusRoot header
     <> hash_of (Blocks.lastBlockConsensus body) /\
   Blocks.BlockBody_validate body header
     = Throw (mkError "invalid lastBlockConsensusHash")) \/
  (BlockHeader.transactionRoot header
     = hash_of (Blocks.transactionList body) /\
   BlockHeader.lastBlockConsensusRoot header
     = hash_of (Blocks.lastBlockConsensus body) /\
   Blocks.BlockBody_validate body header = Return tt).
Proof.
  unfold Blocks.BlockBody_validate.
  destruct (Hash.equals (BlockHeader.transactionRoot header) _) eqn:E1;
    cbn [negb].
  - apply Hash_equals_eq in E1.
    destruct (Hash.equals (BlockHeader.lastBlockConsensusRoot header) _)
      eqn:E2; cbn [negb].
    + apply Hash_equals_eq in E2. right. right. done.
    + right. left. repeat split; [done|].
      intros E. apply Hash_equals_eq in E. congruence.
  - left. split; [|done].
    intros E. apply Hash_equals_eq in E. congruence.
Qed.

Lemma LegacyBlocks_Block_validate_cases
    (b : LegacyBlocks.Block TransactionList Consensus ValidatorSet) :
  let header := LegacyBlocks.header b in
  let body := LegacyBlocks.body b in
  (BlockHeader.transactionRoot header
     <> hash_of (LegacyBlocks.transactionList body) /\
   LegacyBlocks.Block_validate b
     = Throw (mkError "invalid transactionRoot")) \/
  (BlockHeader.transactionRoot header
     = hash_of (LegacyBlocks.transactionList body) /\
   BlockHeader.lastBlockConsensusRoot header
     <> hash_of (LegacyBlocks.lastBlockConsensus body) /\
   LegacyBlocks.Block_validate b
     = Throw (mkError "invalid lastBlockConsensusHash")) \/
  (BlockHeader.transactionRoot header
     = hash_of (LegacyBlocks.transactionList body) /\
   BlockHeader.lastBlockConsensusRoot header
     = hash_of (LegacyBlocks.lastBlockConsensus body) /\
   BlockHeader.nextValidatorSetRoot header
     <> hash_of (LegacyBlocks.nextValidatorSet body) /\
   LegacyBlocks.Block_validate b
     = Throw (mkError "invalid nextValidatorSetRoot")) \/
  (BlockHeader.transactionRoot header
     = hash_of (LegacyBlocks.transactionList body) /\
   BlockHeader.lastBlockConsensusRoot header
     = hash_of (LegacyBlocks.lastBlockConsensus body) /\
   BlockHeader.nextValidatorSetRoot header
     = hash_of (LegacyBlocks.nextValidatorSet body) /\
   LegacyBlocks.Block_validate b = Return tt).
Proof.
  intros header body. unfold LegacyBlocks.Block_validate.
  fold header. fold body.
  destruct (Hash.equals (BlockHeader.transactionRoot header) _) eqn:E1;
    cbn [negb].
  - apply Hash_equals_eq in E1.
    destruct (Hash.equals (BlockHeader.lastBlockConsensusRoot header) _)
      eqn:E2; cbn [negb].
    + apply Hash_equals_eq in E2.
      destruct (Hash.equals (BlockHeader.nextValidatorSetRoot header) _)
        eqn:E3; cbn [negb].
      * apply Hash_equals_eq in E3. do 3 right. done.
      * right. right. left. repeat split; [done..|].
        intros E. apply Hash_equals_eq in E. congruence.
    + right. left. repeat split; [done|].
      intros E. apply Hash_equals_eq in E. congruence.
  - left. split; [|done].
    intros E. apply Hash_equals_eq in E. congruence.
Qed.

End BlockValidation.

Section BlockClaims.
Context `{Hash.Digest}.
Context {TransactionList Consensus ValidatorSet : Type}.
Context `{Serializable TransactionList, Hashable TransactionList}.
Context `{Serializable Consensus, Hashable Consensus}.
Context `{Serializable ValidatorSet, Hashable ValidatorSet}.

(** C1, as amended.  In the layout whose body carries [nextValidatorSet],
    [Block.validate] succeeds exactly when [transactionRoot],
    [lastBlockConsensusRoot] and [nextValidatorSetRoot] of the header equal
    the hashes of the body's transaction list, consensus and validator set,
    and the first check that fails, in this order, throws the error naming
    it.  In [packages/blockchain/src/block.ts], whose body has no
    validator set, [Block.validate] is [BlockBody.validate] against the
    block's header, and it succeeds exactly when the first two equalities
    hold: [nextValidatorSetRoot] is not looked at. *)
Theorem Block_validate_checks_the_roots_of_its_body :
  (forall b : LegacyBlocks.Block TransactionList Consensus ValidatorSet,
     let header := LegacyBlocks.header b in
     let body := LegacyBlocks.body b in
     let t_ok := BlockHeader.transactionRoot header
                 = hash_of (LegacyBlocks.transactionList body) in
     let c_ok := BlockHeader.lastBlockConsensusRoot header
                 = hash_of (LegacyBlocks.lastBlockConsensus body) in
     let v_ok := BlockHeader.nextValidatorSetRoot header
                 = hash_of (LegacyBlocks.nextValidatorSet body) in
     (LegacyBlocks.Block_validate b = Return tt <-> t_ok /\ c_ok /\ v_ok) /\
     (~ t_ok ->
      LegacyBlocks.Block_validate b
      = Throw (mkError "invalid transactionRoot")) /\
     (t_ok -> ~ c_ok ->
      LegacyBlocks.Block_validate b
      = Throw (mkError "invalid lastBlockConsensusHash")) /\
     (t_ok -> c_ok -> ~ v_ok ->
      LegacyBlocks.Block_validate b
      = Throw (mkError "invalid nextValidatorSetRoot"))) /\
  (forall b : Blocks.Block TransactionList Consensus,
     let header := Blocks.header b in
     let body := Blocks.body b in
     let t_ok := BlockHeader.transactionRoot header
                 = hash_of (Blocks.transactionList body) in
     let c_ok := BlockHeader.lastBlockConsensusRoot header
                 = hash_of (Blocks.lastBlockConsensus body) in
     Blocks.Block_validate b = Blocks.BlockBody_validate body header /\
     (Blocks.Block_validate b = Return tt <-> t_ok /\ c_ok) /\
     (~ t_ok ->
      Blocks.Block_validate b = Throw (mkError "invalid transactionRoot")) /\
     (t_ok -> ~ c_ok ->
      Blocks.Block_validate b
      = Throw (mkError "invalid lastBlockConsensusHash"))).
Proof.
  split.
  - intros b header body t_ok c_ok v_ok.
    destruct (LegacyBlocks_Block_validate_cases b)
      as [(N1 & E)|[(E1 & N2 & E)|[(E1 & E2 & N3 & E)|(E1 & E2 & E3 & E)]]];
      fold header in N1 || fold header in E1; rewrite E;
      (split; [split; [discriminate || done | intros (? & ? & ?); done]|]);
      repeat split; intros; done.
  - intros b header body t_ok c_ok.
    split; [reflexivity|]. unfold Blocks.Block_validate.
    fold header. fold body.
    destruct (Blocks_BlockBody_validate_cases body header)
      as [(N1 & E)|[(E1 & N2 & E)|(E1 & E2 & E)]];
      rewrite E;
      (split; [split; [discriminate || done | intros (? & ?); done]|]);
      repeat split; intros; done.
Qed.

(** C9. The block [Block.construct] returns passes [validate], whatever
    the arguments, in both layouts: the roots in its header are the hashes
    of its own body. *)
Theorem Block_construct_validates (height timestamp : Z)
    (lastBlockHash nextValidatorSetHash appStateHash : Hash.t)
    (transactions : TransactionList) (lastBlockConsensus : Consensus)
    (nextValidatorSet : ValidatorSet) :
  Blocks.Block_validate
    (Blocks.Block_construct height timestamp lastBlockHash
       nextValidatorSetHash appStateHash transactions lastBlockConsensus)
  = Return tt /\
  LegacyBlocks.Block_validate
    (LegacyBlocks.Block_construct height timestamp lastBlockHash
       appStateHash transactions lastBlockConsensus nextValidatorSet)
  = Return tt.
Proof.
  split.
  - unfold Blocks.Block_validate, Blocks.BlockBody_validate. cbn.
    by rewrite !Hash_equals_refl.
  - unfold LegacyBlocks.Block_validate. cbn.
    by rewrite !Hash_equals_refl.
Qed.

Lemma Blocks_Block_deserialize_hash (r r' : Buffer)
    (b : Blocks.Block TransactionList Consensus) :
  Blocks.Block_deserialize r = Some (b, r') ->
  Blocks.hash b = BlockHeader.hash (Blocks.header b).
Proof.
  unfold Blocks.Block_deserialize, bind, ret.
  destruct (BlockHeader.deserialize r) as [[h r1]|]; [|done].
  destruct (Blocks.BlockBody_deserialize r1) as [[bd r2]|]; [|done].
  intros [= <- _]. reflexivity.
Qed.

Lemma LegacyBlocks_Block_deserialize_hash (r r' : Buffer)
    (b : LegacyBlocks.Block TransactionList Consensus ValidatorSet) :
  LegacyBlocks.Block_deserialize r = Some (b, r') ->
  LegacyBlocks.hash b = BlockHeader.hash (LegacyBlocks.header b).
Proof.
  unfold LegacyBlocks.Block_deserialize, bind, ret.
  destruct (BlockHeader.deserialize r) as [[h r1]|]; [|done].
  destruct (LegacyBlocks.BlockBody_deserialize r1) as [[bd r2]|]; [|done].
  intros [= <- _]. reflexivity.
Qed.

(** C10. The hash of a block is the hash of its header: the constructor
    copies it, so two blocks with one header have one hash whatever their
    bodies, and so has every block that [construct] or [deserialize]
    returns.  Both layouts. *)
Theorem Block_hash_is_header_hash :
  (forall (header : BlockHeader.t)
          (body1 body2 : Blocks.BlockBody TransactionList Consensus),
     Blocks.hash (Blocks.Block_new header body1) = BlockHeader.hash header /\
     Blocks.hash (Blocks.Block_new header body1)
     = Blocks.hash (Blocks.Block_new header body2)) /\
  (forall (header : BlockHeader.t)
          (body1 body2 :
             LegacyBlocks.BlockBody TransactionList Consensus ValidatorSet),
     LegacyBlocks.hash (LegacyBlocks.Block_new header body1)
     = BlockHeader.hash header /\
     LegacyBlocks.hash (LegacyBlocks.Block_new header body1)
     = LegacyBlocks.hash (LegacyBlocks.Block_new header body2)) /\
  (forall (height timestamp : Z) (lastBlockHash nvs appStateHash : Hash.t)
          (transactions : TransactionList) (consensus : Consensus)
          (validators : ValidatorSet),
     let b := Blocks.Block_construct height timestamp lastBlockHash nvs
                appStateHash transactions consensus in
     let b' := LegacyBlocks.Block_construct height timestamp lastBlockHash
                 appStateHash transactions consensus validators in
     Blocks.hash b = BlockHeader.hash (Blocks.header b) /\
     LegacyBlocks.hash b' = BlockHeader.hash (LegacyBlocks.header b')) /\
  (forall (r r' : Buffer) (b : Blocks.Block TransactionList Consensus)
          (b' : LegacyBlocks.Block TransactionList Consensus ValidatorSet),
     (Blocks.Block_deserialize r = Some (b, r') ->
      Blocks.hash b = BlockHeader.hash (Blocks.header b)) /\
     (LegacyBlocks.Block_deserialize r = Some (b', r') ->
      LegacyBlocks.hash b' = BlockHeader.hash (LegacyBlocks.header b'))).
Proof.
  repeat split.
  - apply Blocks_Block_deserialize_hash.
  - apply LegacyBlocks_Block_deserialize_hash.
Qed.

End BlockClaims.

(** C1, as stated, fails on [packages/blockchain/src/block.ts]: no hash
    computed from the body can stand for the validator-set root in the
    third equality, since two blocks with one body and two different
    [nextValidatorSetRoot]s both pass. *)
Lemma Block_validate_ignores_nextValidatorSetRoot :
  ~ (exists nextValidatorSet_hash : Blocks.BlockBody byte byte -> Hash.t,
       forall b : Blocks.Block byte byte,
         @Blocks.Block_validate byte byte Sample.byte_hashable
           Sample.byte_hashable b = Return tt <->
         BlockHeader.transactionRoot (Blocks.header b)
         = @hash_of _ Sample.byte_hashable
             (Blocks.transactionList (Blocks.body b)) /\
         BlockHeader.lastBlockConsensusRoot (Blocks.header b)
         = @hash_of _ Sample.byte_hashable
             (Blocks.lastBlockConsensus (Blocks.body b)) /\
         BlockHeader.nextValidatorSetRoot (Blocks.header b)
         = nextValidatorSet_hash (Blocks.body b)).
Proof.
  intros [f Hf].
  pose (b1 := @Blocks.Block_construct Sample.digest byte byte
                Sample.byte_hashable Sample.byte_hashable
                1 1541116800000 (Sample.h32 x00) (Sample.h32 x01)
                (Sample.h32 x09) x2a x07).
  pose (b2 := @Blocks.Block_construct Sample.digest byte byte
                Sample.byte_hashable Sample.byte_hashable
                1 1541116800000 (Sample.h32 x00) (Sample.h32 x02)
                (Sample.h32 x09) x2a x07).
  destruct (proj1 (Hf b1) eq_refl) as (_ & _ & E1).
  destruct (proj1 (Hf b2) eq_refl) as (_ & _ & E2).
  cbn in E1, E2. rewrite <- E1 in E2. discriminate E2.
Qed.

(** ** Time-outs *)

(** C4. With the default options ([new ConsensusTimeout({})]) the time-outs
    of round [r] are [3000 * 1.2^r], [1000 * 1.2^r] and [1000 * 1.2^r]
    milliseconds for propose, prevote and precommit, where [*] is the
    product of numbers and [1.2^r] is [Math.pow(1.2, r)]. *)
Theorem default_timeouts `{Timeout.Math} (round : float) :
  let t := Timeout.new Timeout.empty in
  Timeout.propose t round = (3000 * Timeout.pow 1.2 round)%float /\
  Timeout.prevote t round = (1000 * Timeout.pow 1.2 round)%float /\
  Timeout.precommit t round = (1000 * Timeout.pow 1.2 round)%float.
Proof. repeat split. Qed.

(** An option that is given replaces the default, the others stay. *)
Lemma given_timeout_replaces_default `{Timeout.Math} (base round : float) :
  let t := Timeout.new
             (Timeout.mkPartialTimeoutOptions (Some base) None None None
                None None) in
  Timeout.propose t round = (base * Timeout.pow 1.2 round)%float /\
  Timeout.prevote t round = (1000 * Timeout.pow 1.2 round)%float.
Proof. repeat split. Qed.

(** Rounds are numbers, and from [2^53] on a number and its successor are
    the same number: whatever [Math.pow] is, the time-outs of round
    [2^53 + 1] are the time-outs of round [2^53]. *)
Lemma timeouts_of_round_2_53 `{Timeout.Math} (t : Timeout.ConsensusTimeout) :
  let r := 9007199254740992%float in
  Timeout.propose t (r + 1) = Timeout.propose t r /\
  Timeout.prevote t (r + 1) = Timeout.prevote t r /\
  Timeout.precommit t (r + 1) = Timeout.precommit t r.
Proof.
  intros r.
  assert (E : (r + 1)%float = r) by (vm_compute; reflexivity).
  by rewrite E.
Qed.

(** *** Growth in the round *)








(** The formula in exact arithmetic at the default options: [3000], [3600],
    [4320] milliseconds for rounds 0, 1, 2 of propose. *)
Example exact_default_propose :
  (TimeoutGrowth.geometric Qmult TimeoutGrowth.exact_pow 3000 (12 # 10)
     0%nat
   == 3000)%Q /\
  (TimeoutGrowth.geometric Qmult TimeoutGrowth.exact_pow 3000 (12 # 10)
     1%nat
   == 3600)%Q /\
  (TimeoutGrowth.geometric Qmult TimeoutGrowth.exact_pow 3000 (12 # 10)
     2%nat
   == 4320)%Q.
Proof. repeat split. Qed.

(** ** The node: handshake, shutdown, errors *)

Lemma effects_foldl_call {A : Type} (f : A -> Node.Effect) (l : list A)
    (this : Node.t) :
  let this' := foldl (fun this a => Node.call (f a) this) this l in
  Node.effects this' = Node.effects this ++ map f l /\
  Node.remoteNode this' = Node.remoteNode this /\
  Node.genesisHash this' = Node.genesisHash this.
Proof.
  revert this. induction l as [|a l IH]; intros this; cbn [foldl map].
  - by rewrite app_nil_r.
  - destruct (IH (Node.call (f a) this)) as (E & R & G).
    rewrite E, R, G. cbn. by rewrite <- app_assoc.
Qed.

(** C6. A [Hello] whose genesis hash is that of the local genesis block
    registers the peer in the remote-node set, under its peer id, with the
    height the message reports; a [Hello] with another genesis hash drops
    the peer and leaves the remote-node set, hence its size, as it was. *)
Theorem hello_registers_or_drops (msg : Hello.t) (protocol : Protocol.t)
    (this : Node.t) :
  let this' := Node.hello msg protocol this in
  let peer := Protocol.peerId protocol in
  (Hello.genesis msg = Node.genesisHash this ->
   RemoteNodeSet.get peer (Node.remoteNode this')
   = Some (RemoteNode.mk peer protocol (Hello.height msg)) /\
   (forall other : string, other <> peer ->
      RemoteNodeSet.get other (Node.remoteNode this')
      = RemoteNodeSet.get other (Node.remoteNode this)) /\
   Node.effects this'
   = Node.effects this ++ [Node.SynchronizerNewNode; Node.ProtocolOnEnd peer])
  /\
  (Hello.genesis msg <> Node.genesisHash this ->
   Node.remoteNode this' = Node.remoteNode this /\
   size (Node.remoteNode this') = size (Node.remoteNode this) /\
   Node.effects this' = Node.effects this ++ [Node.NetworkDropPeer peer]).
Proof.
  intros this' peer. subst this'. unfold Node.hello. split.
  - intros E. apply Hash_equals_eq in E. rewrite E.
    cbn. unfold RemoteNodeSet.get, RemoteNodeSet.add. cbn.
    split; [apply lookup_insert_eq|]. split.
    + intros other Hne. by apply lookup_insert_ne.
    + by rewrite <- app_assoc.
  - intros N.
    destruct (Hash.equals (Hello.genesis msg) (Node.genesisHash this)) eqn:E.
    + apply Hash_equals_eq in E. contradiction.
    + done.
Qed.

(** C7, as amended.  [stop] ends the protocol of every remote node, then
    stops the network, then the consensus engine, then the synchronizer,
    then the executor, in this order, and makes no other call: the
    blockchain store is not closed. *)
Theorem stop_order (this : Node.t) :
  Node.effects (Node.stop this)
  = Node.effects this
      ++ map (fun node =>
                Node.ProtocolEnd (Protocol.peerId (RemoteNode.protocol node)))
             (RemoteNodeSet.nodes (Node.remoteNode this))
      ++ [Node.NetworkStop; Node.ConsensusEngineStop;
          Node.SynchronizerStop; Node.ExecutorStop] /\
  Node.remoteNode (Node.stop this) = Node.remoteNode this /\
  (Node.StoreClose ∉ Node.effects this ->
   Node.StoreClose ∉ Node.effects (Node.stop this)).
Proof.
  unfold Node.stop.
  destruct (effects_foldl_call
              (fun node =>
                 Node.ProtocolEnd
                   (Protocol.peerId (RemoteNode.protocol node)))
              (RemoteNodeSet.nodes (Node.remoteNode this)) this)
    as (E & R & _).
  cbv zeta in E, R. cbn [Node.call Node.effects Node.remoteNode].
  rewrite E, R. split; [by rewrite <- !app_assoc|]. split; [done|].
  intros Hn. rewrite !not_elem_of_app, !not_elem_of_cons.
  split_and!; try discriminate; try apply not_elem_of_nil; [exact Hn|].
  intros (node & Hc & _)%list_elem_of_fmap. discriminate Hc.
Qed.

(** C7, as stated, fails: on a node with one remote node the calls of
    [stop] are not the sequence of the specification, which has no stop of
    the network and ends in closing the store. *)
Lemma stop_is_not_the_order_of_the_spec :
  Node.effects (Node.stop Sample.node0)
  = [Node.ProtocolEnd "QmAlice"; Node.NetworkStop; Node.ConsensusEngineStop;
     Node.SynchronizerStop; Node.ExecutorStop] /\
  Node.stop_order_of_spec Sample.node0
  = [Node.ProtocolEnd "QmAlice"; Node.ConsensusEngineStop;
     Node.SynchronizerStop; Node.ExecutorStop; Node.StoreClose] /\
  Node.effects (Node.stop Sample.node0)
  <> Node.stop_order_of_spec Sample.node0.
Proof.
  assert (E1 : Node.effects (Node.stop Sample.node0)
    = [Node.ProtocolEnd "QmAlice"; Node.NetworkStop;
       Node.ConsensusEngineStop; Node.SynchronizerStop; Node.ExecutorStop])
    by (vm_compute; reflexivity).
  assert (E2 : Node.stop_order_of_spec Sample.node0
    = [Node.ProtocolEnd "QmAlice"; Node.ConsensusEngineStop;
       Node.SynchronizerStop; Node.ExecutorStop; Node.StoreClose])
    by (vm_compute; reflexivity).
  rewrite E1, E2. repeat split. discriminate.
Qed.

(** C8. An error of the network or of a peer protocol whose message is
    exactly ["underlying socket has been closed"] is swallowed: the handler
    returns without a call, so nothing is emitted; every other error of
    these two sources is emitted once as an ['error'] event. *)
Theorem socket_closed_errors_are_swallowed (err : Error) (this : Node.t) :
  (message err = "underlying socket has been closed" ->
   Node.network_onError err this = this /\
   Node.protocol_onError err this = this) /\
  (message err <> "underlying socket has been closed" ->
   Node.effects (Node.network_onError err this)
   = Node.effects this ++ [Node.EmitError err] /\
   Node.effects (Node.protocol_onError err this)
   = Node.effects this ++ [Node.EmitError err]).
Proof.
  unfold Node.network_onError, Node.protocol_onError. split.
  - intros E. rewrite E. done.
  - intros N. apply String.eqb_neq in N. rewrite N. done.
Qed.

(** ** The definitions at work *)

Example be_bytes_258 :
  be_bytes 8 258 = [x00; x00; x00; x00; x00; x00; x01; x02].
Proof. reflexivity. Qed.

Example header0_has_176_bytes :
  length (@serialize _ (@BlockHeader.serializable Sample.digest)
            Sample.header0) = 176%nat.
Proof. reflexivity. Qed.

(** A block of the earlier layout whose header names another validator
    set is refused with the error of the third check. *)
Example legacy_block_with_foreign_validator_root :
  @LegacyBlocks.Block_validate byte byte byte Sample.byte_hashable
    Sample.byte_hashable Sample.byte_hashable
    (LegacyBlocks.Block_new
       (@BlockHeader.new Sample.digest 1 1541116800000 (Sample.h32 x00)
          (@hash_of _ Sample.byte_hashable x2a)
          (@hash_of _ Sample.byte_hashable x07)
          (Sample.h32 x01) (Sample.h32 x09))
       (LegacyBlocks.mkBlockBody x2a x07 x03))
  = Throw (mkError "invalid nextValidatorSetRoot").
Proof. vm_compute. reflexivity. Qed.

(** The same header over the two-field body of [block.ts] is accepted. *)
Example block_with_any_validator_root :
  @Blocks.Block_validate byte byte Sample.byte_hashable Sample.byte_hashable
    (Blocks.Block_new
       (@BlockHeader.new Sample.digest 1 1541116800000 (Sample.h32 x00)
          (@hash_of _ Sample.byte_hashable x2a)
          (@hash_of _ Sample.byte_hashable x07)
          (Sample.h32 x01) (Sample.h32 x09))
       (Blocks.mkBlockBody x2a x07))
  = Return tt.
Proof. vm_compute. reflexivity. Qed.

Example hello_of_the_same_chain :
  let this' := Node.hello (Hello.mk 9 (Sample.h32 x01))
                 (Protocol.mk "QmBob") Sample.node0 in
  RemoteNodeSet.get "QmBob" (Node.remoteNode this')
  = Some (RemoteNode.mk "QmBob" (Protocol.mk "QmBob") 9) /\
  size (Node.remoteNode this') = 2%nat.
Proof. vm_compute. split; reflexivity. Qed.

Example hello_of_a_foreign_chain :
  let this' := Node.hello (Hello.mk 9 (Sample.h32 x02))
                 (Protocol.mk "QmBob") Sample.node0 in
  RemoteNodeSet.get "QmBob" (Node.remoteNode this') = None /\
  size (Node.remoteNode this') = 1%nat /\
  Node.effects this' = [Node.NetworkDropPeer "QmBob"].
Proof. vm_compute. repeat split; reflexivity. Qed.

Example closed_socket_is_not_emitted :
  Node.effects
    (Node.network_onError (mkError "underlying socket has been closed")
       Sample.node0) = [] /\
  Node.effects
    (Node.protocol_onError (mkError "Underlying socket has been closed")
       Sample.node0)
  = [Node.EmitError (mkError "Underlying socket has been closed")].
Proof. vm_compute. split; reflexivity. Qed.

(** * More of the code *)

(** ** Reading back what big-endian bytes hold *)

Lemma byte_of_Z_of_byte (b : byte) : byte_of_Z (Z_of_byte b) = b.
Proof.
  unfold byte_of_Z. rewrite Z.mod_small by apply Z_of_byte_range.
  unfold Z_of_byte. rewrite N2Z.id, Byte.of_to_N. reflexivity.
Qed.








(** ** Headers read from arbitrary bytes *)

Section HeaderExact.
Context `{Hash.Digest}.

(** A header whose hash is the digest of its bytes is the header the
    constructor builds from its seven fields. *)
Lemma BlockHeader_constructed (h : BlockHeader.t) :
  BlockHeader.hash h = Hash.fromData (serialize h) ->
  h = BlockHeader.new (BlockHeader.height h) (BlockHeader.timestamp h)
        (BlockHeader.lastBlockHash h) (BlockHeader.transactionRoot h)
        (BlockHeader.lastBlockConsensusRoot h)
        (BlockHeader.nextValidatorSetRoot h) (BlockHeader.appStateHash h).
Proof. destruct h. cbn. intros ->. reflexivity. Qed.



(** X3. Two constructed headers within the range of the wire format that
    serialize to the same bytes are the same header: headers that differ in
    a field differ in their bytes. *)
Theorem BlockHeader_serialize_injective (h1 h2 : BlockHeader.t) :
  BlockHeader.hash h1 = Hash.fromData (serialize h1) ->
  BlockHeader.hash h2 = Hash.fromData (serialize h2) ->
  BlockHeader.valid h1 -> BlockHeader.valid h2 ->
  serialize h1 = serialize h2 -> h1 = h2.
Proof.
  intros C1 C2 V1 V2 E.
  pose proof (BlockHeader_constructed h1 C1) as N1.
  pose proof (BlockHeader_constructed h2 C2) as N2.
  assert (R1 : BlockHeader.deserialize (serialize h1 ++ []) = Some (h1, [])).
  { rewrite N1 in V1 |- *.
    exact (BlockHeader_deserialize_serialize _ _ _ _ _ _ _ [] V1). }
  assert (R2 : BlockHeader.deserialize (serialize h2 ++ []) = Some (h2, [])).
  { rewrite N2 in V2 |- *.
    exact (BlockHeader_deserialize_serialize _ _ _ _ _ _ _ [] V2). }
  rewrite E, R2 in R1. by injection R1.
Qed.

End HeaderExact.



Lemma BlockHeader_serialize_injective_witness :
  @BlockHeader.valid Sample.digest Sample.header0 /\
  Sample.header0 = Sample.header0.
Proof.
  split; [exact Sample_header0_valid|].
  exact (@BlockHeader_serialize_injective Sample.digest
           Sample.header0 Sample.header0 eq_refl eq_refl
           Sample_header0_valid Sample_header0_valid eq_refl).
Defined.

(** ** Blocks on the wire *)

Section BlocksOnTheWire.
Context `{Hash.Digest}.
Context {TransactionList Consensus ValidatorSet : Type}.
Context `{Serializable TransactionList, Hashable TransactionList,
          !SerializableLaws TransactionList}.
Context `{Serializable Consensus, Hashable Consensus,
          !SerializableLaws Consensus}.
Context `{Serializable ValidatorSet, Hashable ValidatorSet,
          !SerializableLaws ValidatorSet}.

(** X4. The bytes of a block are the bytes of its header followed by
    those of its body, so the header alone can be read from the front of a
    serialized block, leaving the bytes of the body. *)
Theorem header_is_read_from_the_front_of_a_block (height timestamp : Z)
    (lastBlockHash transactionRoot lastBlockConsensusRoot
     nextValidatorSetRoot appStateHash : Hash.t)
    (body : Blocks.BlockBody TransactionList Consensus) (rest : Buffer) :
  let h := BlockHeader.new height timestamp lastBlockHash transactionRoot
             lastBlockConsensusRoot nextValidatorSetRoot appStateHash in
  let b := Blocks.Block_new h body in
  BlockHeader.valid h ->
  serialize b = serialize h ++ serialize body /\
  BlockHeader.deserialize (serialize b ++ rest)
  = Some (h, serialize body ++ rest).
Proof.
  intros h b Hh.
  assert (E : serialize b = serialize h ++ serialize body).
  { unfold serialize at 1. cbn [serialize_to Blocks.Block_serializable].
    unfold Blocks.Block_serialize. subst b.
    cbn [Blocks.header Blocks.body Blocks.Block_new].
    rewrite Blocks_BlockBody_serialize_spec.
    unfold serialize at 4. cbn [serialize_to Blocks.BlockBody_serializable].
    rewrite Blocks_BlockBody_serialize_spec. reflexivity. }
  split; [exact E|]. rewrite E, <- app_assoc.
  exact (BlockHeader_deserialize_serialize _ _ _ _ _ _ _ _ Hh).
Qed.

(** X5. A block made by [Block.construct] survives the wire: what
    [Block.deserialize] reads from its bytes is the block itself, with the
    same hash, and it passes [validate].  The arguments are within the
    range of the wire format, the hashes of the body included. *)
Theorem constructed_block_validates_after_the_wire (height timestamp : Z)
    (lastBlockHash nextValidatorSet appStateHash : Hash.t)
    (transactions : TransactionList) (consensus : Consensus) :
  let b := Blocks.Block_construct height timestamp lastBlockHash
             nextValidatorSet appStateHash transactions consensus in
  UInt64.valid height -> UInt64.valid timestamp ->
  Hash.valid lastBlockHash -> Hash.valid nextValidatorSet ->
  Hash.valid appStateHash ->
  Hash.valid (hash_of transactions) -> Hash.valid (hash_of consensus) ->
  well_formed transactions -> well_formed consensus ->
  exists b' : Blocks.Block TransactionList Consensus,
    Blocks.Block_deserialize (serialize b) = Some (b', []) /\
    b' = b /\ Blocks.hash b' = Blocks.hash b /\
    Blocks.Block_validate b' = Return tt.
Proof.
  intros b Vh Vt V1 V2 V3 V4 V5 Wt Wc. exists b.
  split; [|split; [reflexivity|split; [reflexivity|]]].
  - pose proof (Blocks_Block_deserialize_serialize height timestamp
                  lastBlockHash (hash_of transactions) (hash_of consensus)
                  nextValidatorSet appStateHash
                  (Blocks.mkBlockBody transactions consensus) []) as R.
    cbv zeta in R. rewrite app_nil_r in R. apply R; [|exact Wt|exact Wc].
    exact (conj Vh (conj Vt (conj V1 (conj V4 (conj V5 (conj V2 V3)))))).
  - unfold Blocks.Block_validate, Blocks.BlockBody_validate. cbn.
    by rewrite !Hash_equals_refl.
Qed.

(** X6. The earlier layout extends the layout of [block.ts]: with the
    hash of the validator set as [nextValidatorSet] argument both
    [Block.construct] build the same header and block hash, the bytes of
    the earlier block are the bytes of the [block.ts] block followed by
    those of the validator set, and [Block.deserialize] of [block.ts] reads
    its block from them, leaving the validator set unread. *)
Theorem earlier_layout_extends_the_layout_of_block_ts (height timestamp : Z)
    (lastBlockHash appStateHash : Hash.t)
    (transactions : TransactionList) (consensus : Consensus)
    (validators : ValidatorSet) :
  let b := Blocks.Block_construct height timestamp lastBlockHash
             (hash_of validators) appStateHash transactions consensus in
  let b' := LegacyBlocks.Block_construct height timestamp lastBlockHash
              appStateHash transactions consensus validators in
  UInt64.valid height -> UInt64.valid timestamp ->
  Hash.valid lastBlockHash -> Hash.valid appStateHash ->
  Hash.valid (hash_of transactions) -> Hash.valid (hash_of consensus) ->
  Hash.valid (hash_of validators) ->
  well_formed transactions -> well_formed consensus ->
  Blocks.header b = LegacyBlocks.header b' /\
  Blocks.hash b = LegacyBlocks.hash b' /\
  serialize b' = serialize b ++ serialize validators /\
  Blocks.Block_deserialize (serialize b') = Some (b, serialize validators).
Proof.
  intros b b' Vh Vt V1 V2 V3 V4 V5 Wt Wc.
  assert (E : serialize b' = serialize b ++ serialize validators).
  { unfold serialize at 1 2.
    cbn [serialize_to Blocks.Block_serializable
         LegacyBlocks.Block_serializable].
    unfold Blocks.Block_serialize, LegacyBlocks.Block_serialize.
    rewrite Blocks_BlockBody_serialize_spec,
      LegacyBlocks_BlockBody_serialize_spec.
    subst b b'. cbn. by rewrite <- !app_assoc. }
  split; [reflexivity|]. split; [reflexivity|]. split; [exact E|].
  rewrite E.
  pose proof (Blocks_Block_deserialize_serialize height timestamp
                lastBlockHash (hash_of transactions) (hash_of consensus)
                (hash_of validators) appStateHash
                (Blocks.mkBlockBody transactions consensus)
                (serialize validators)) as R.
  cbv zeta in R. apply R; [|exact Wt|exact Wc].
  exact (conj Vh (conj Vt (conj V1 (conj V3 (conj V4 (conj V5 V2)))))).
Qed.

End BlocksOnTheWire.

Lemma Sample_h32_valid (b : byte) : @Hash.valid Sample.digest (Sample.h32 b).
Proof. reflexivity. Qed.

Lemma Sample_hash_of_valid (b : byte) :
  @Hash.valid Sample.digest (@hash_of _ Sample.byte_hashable b).
Proof. reflexivity. Qed.

Lemma Sample_uint64_valid_1 : UInt64.valid 1 /\ UInt64.valid 1541116800000.
Proof. unfold UInt64.valid. lia. Qed.

Lemma header_is_read_from_the_front_of_a_block_witness :
  let body := Blocks.mkBlockBody x2a x07 in
  let b := @Blocks.Block_new byte byte Sample.header0 body in
  @BlockHeader.valid Sample.digest Sample.header0 /\
  @BlockHeader.deserialize Sample.digest
    (@serialize _
       (@Blocks.Block_serializable Sample.digest byte byte
          Sample.byte_serializable Sample.byte_serializable) b ++ [xff])
  = Some (Sample.header0, [x2a; x07; xff]).
Proof.
  split; [exact Sample_header0_valid|].
  exact (proj2 (@header_is_read_from_the_front_of_a_block Sample.digest
                  byte byte Sample.byte_serializable Sample_byte_laws
                  Sample.byte_serializable Sample_byte_laws
                  258 1541116800000
                  (Sample.h32 x01) (Sample.h32 x02) (Sample.h32 x03)
                  (Sample.h32 x04) (Sample.h32 x05)
                  (Blocks.mkBlockBody x2a x07) [xff] Sample_header0_valid)).
Defined.

Lemma constructed_block_validates_after_the_wire_witness :
  let b := @Blocks.Block_construct Sample.digest byte byte
             Sample.byte_hashable Sample.byte_hashable
             1 1541116800000 (Sample.h32 x00) (Sample.h32 x01)
             (Sample.h32 x09) x2a x07 in
  UInt64.valid 1 /\ UInt64.valid 1541116800000 /\
  exists b',
    @Blocks.Block_deserialize Sample.digest byte byte
      Sample.byte_serializable Sample.byte_serializable
      (@serialize _
         (@Blocks.Block_serializable Sample.digest byte byte
            Sample.byte_serializable Sample.byte_serializable) b)
    = Some (b', []) /\
    b' = b /\ Blocks.hash b' = Blocks.hash b /\
    @Blocks.Block_validate byte byte Sample.byte_hashable
      Sample.byte_hashable b' = Return tt.
Proof.
  split; [exact (proj1 Sample_uint64_valid_1)|].
  split; [exact (proj2 Sample_uint64_valid_1)|].
  exact (@constructed_block_validates_after_the_wire Sample.digest
           byte byte Sample.byte_serializable Sample.byte_hashable
           Sample_byte_laws Sample.byte_serializable Sample.byte_hashable
           Sample_byte_laws
           1 1541116800000 (Sample.h32 x00) (Sample.h32 x01)
           (Sample.h32 x09) x2a x07
           (proj1 Sample_uint64_valid_1) (proj2 Sample_uint64_valid_1)
           (Sample_h32_valid x00) (Sample_h32_valid x01)
           (Sample_h32_valid x09)
           (Sample_hash_of_valid x2a) (Sample_hash_of_valid x07) I I).
Defined.

Lemma earlier_layout_extends_the_layout_of_block_ts_witness :
  let b := @Blocks.Block_construct Sample.digest byte byte
             Sample.byte_hashable Sample.byte_hashable
             1 1541116800000 (Sample.h32 x00)
             (@hash_of _ Sample.byte_hashable x03)
             (Sample.h32 x09) x2a x07 in
  let b' := @LegacyBlocks.Block_construct Sample.digest byte byte byte
              Sample.byte_hashable Sample.byte_hashable
              Sample.byte_hashable
              1 1541116800000 (Sample.h32 x00) (Sample.h32 x09)
              x2a x07 x03 in
  UInt64.valid 1 /\ UInt64.valid 1541116800000 /\
  @Blocks.Block_deserialize Sample.digest byte byte
    Sample.byte_serializable Sample.byte_serializable
    (@serialize _
       (@LegacyBlocks.Block_serializable Sample.digest byte byte byte
          Sample.byte_serializable Sample.byte_serializable
          Sample.byte_serializable) b')
  = Some (b, [x03]).
Proof.
  split; [exact (proj1 Sample_uint64_valid_1)|].
  split; [exact (proj2 Sample_uint64_valid_1)|].
  exact (proj2 (proj2 (proj2
    (@earlier_layout_extends_the_layout_of_block_ts Sample.digest
       byte byte byte Sample.byte_serializable Sample.byte_hashable
       Sample_byte_laws Sample.byte_serializable Sample.byte_hashable
       Sample_byte_laws Sample.byte_serializable Sample.byte_hashable
       Sample_byte_laws
       1 1541116800000 (Sample.h32 x00) (Sample.h32 x09) x2a x07 x03
       (proj1 Sample_uint64_valid_1) (proj2 Sample_uint64_valid_1)
       (Sample_h32_valid x00) (Sample_h32_valid x09)
       (Sample_hash_of_valid x2a) (Sample_hash_of_valid x07)
       (Sample_hash_of_valid x03) I I)))).
Defined.

(** X7. A block of the earlier layout that is serialized and deserialized
    comes back equal, validator set included. *)
Theorem LegacyBlocks_Block_round_trip `{Hash.Digest}
    {TransactionList Consensus ValidatorSet : Type}
    `{Serializable TransactionList, Hashable TransactionList,
      !SerializableLaws TransactionList}
    `{Serializable Consensus, Hashable Consensus,
      !SerializableLaws Consensus}
    `{Serializable ValidatorSet, Hashable ValidatorSet,
      !SerializableLaws ValidatorSet}
    (height timestamp : Z)
    (lastBlockHash transactionRoot lastBlockConsensusRoot
     nextValidatorSetRoot appStateHash : Hash.t)
    (body : LegacyBlocks.BlockBody TransactionList Consensus ValidatorSet)
    (rest : Buffer) :
  let h := BlockHeader.new height timestamp lastBlockHash transactionRoot
             lastBlockConsensusRoot nextValidatorSetRoot appStateHash in
  let b := LegacyBlocks.Block_new h body in
  BlockHeader.valid h ->
  well_formed (LegacyBlocks.transactionList body) ->
  well_formed (LegacyBlocks.lastBlockConsensus body) ->
  well_formed (LegacyBlocks.nextValidatorSet body) ->
  LegacyBlocks.Block_deserialize (serialize b ++ rest) = Some (b, rest) /\
  LegacyBlocks.BlockBody_deserialize (serialize body ++ rest)
  = Some (body, rest).
Proof.
  intros h b Hh Ht Hc Hv. split.
  - exact (LegacyBlocks_Block_deserialize_serialize _ _ _ _ _ _ _ body rest
             Hh Ht Hc Hv).
  - unfold serialize at 1.
    cbn [serialize_to LegacyBlocks.BlockBody_serializable].
    rewrite LegacyBlocks_BlockBody_serialize_spec. cbn [app].
    rewrite <- !app_assoc.
    unfold LegacyBlocks.BlockBody_deserialize, bind, ret.
    rewrite (deserialize_serialize _ _ Ht), (deserialize_serialize _ _ Hc),
      (deserialize_serialize _ _ Hv).
    by destruct body.
Qed.

Lemma LegacyBlocks_Block_round_trip_witness :
  let b := @LegacyBlocks.Block_new byte byte byte Sample.header0
             (LegacyBlocks.mkBlockBody x2a x07 x03) in
  @BlockHeader.valid Sample.digest Sample.header0 /\
  @LegacyBlocks.Block_deserialize Sample.digest byte byte byte
    Sample.byte_serializable Sample.byte_serializable
    Sample.byte_serializable
    (@serialize _
       (@LegacyBlocks.Block_serializable Sample.digest byte byte byte
          Sample.byte_serializable Sample.byte_serializable
          Sample.byte_serializable) b ++ [xff])
  = Some (b, [xff]).
Proof.
  split; [exact Sample_header0_valid|].
  exact (proj1 (@LegacyBlocks_Block_round_trip Sample.digest byte byte byte
                  Sample.byte_serializable Sample.byte_hashable
                  Sample_byte_laws Sample.byte_serializable
                  Sample.byte_hashable Sample_byte_laws
                  Sample.byte_serializable Sample.byte_hashable
                  Sample_byte_laws
                  258 1541116800000
                  (Sample.h32 x01) (Sample.h32 x02) (Sample.h32 x03)
                  (Sample.h32 x04) (Sample.h32 x05)
                  (LegacyBlocks.mkBlockBody x2a x07 x03) [xff]
                  Sample_header0_valid I I I)).
Defined.

(** ** The life of a peer in the node *)

Lemma hello_same_chain (msg : Hello.t) (protocol : Protocol.t)
    (this : Node.t) :
  Hello.genesis msg = Node.genesisHash this ->
  let peer := Protocol.peerId protocol in
  let node := RemoteNode.mk peer protocol (Hello.height msg) in
  Node.remoteNode (Node.hello msg protocol this)
  = <[peer := node]> (Node.remoteNode this) /\
  Node.effects (Node.hello msg protocol this)
  = Node.effects this ++ [Node.SynchronizerNewNode; Node.ProtocolOnEnd peer].
Proof.
  intros E peer node. unfold Node.hello.
  apply Hash_equals_eq in E. rewrite E. cbn. by rewrite <- app_assoc.
Qed.

Lemma hello_foreign_chain (msg : Hello.t) (protocol : Protocol.t)
    (this : Node.t) :
  Hello.genesis msg <> Node.genesisHash this ->
  Node.hello msg protocol this
  = Node.dropPeer (Protocol.peerId protocol) this.
Proof.
  intros N. unfold Node.hello.
  destruct (Hash.equals (Hello.genesis msg) (Node.genesisHash this)) eqn:E;
    [|reflexivity].
  apply Hash_equals_eq in E. contradiction.
Qed.

Section Dispatch.
Context {NewBlock NewBlockHeight ConsensusMessage : Type}.
Abbreviation Delivery :=
  (NodeHandlers.Delivery NewBlock NewBlockHeight ConsensusMessage).

(** X8. A message is handed on only for a peer found in the remote-node
    set.  For a peer that is not registered [getRemoteNode] and the three
    dispatching handlers throw ['Remote node disappeared'] and make no
    call; for a registered peer each handler makes its one call, with the
    registered node (and, for a consensus message, with the inner
    [message]). *)
Theorem dispatch_needs_a_registered_peer (protocol : Protocol.t)
    (this : Node.t) (nb : NewBlock) (nbh : NewBlockHeight)
    (cm : NewConsensusMessage.t ConsensusMessage) :
  let found :=
    RemoteNodeSet.get (Protocol.peerId protocol) (Node.remoteNode this) in
  let gone := mkError "Remote node disappeared" in
  (found = None ->
   NodeHandlers.getRemoteNode protocol this = Throw gone /\
   NodeHandlers.newBlock nb protocol this = (Throw gone : Completion Delivery)
   /\
   NodeHandlers.newBlockHeight nbh protocol this
   = (Throw gone : Completion Delivery) /\
   NodeHandlers.newConsensusMessage cm protocol this
   = (Throw gone : Completion Delivery)) /\
  (forall node : RemoteNode.t, found = Some node ->
   NodeHandlers.getRemoteNode protocol this = Return node /\
   NodeHandlers.newBlock nb protocol this
   = Return (NodeHandlers.Synchronizer_newBlock nb node : Delivery) /\
   NodeHandlers.newBlockHeight nbh protocol this
   = Return (NodeHandlers.Synchronizer_newBlockHeight nbh node : Delivery) /\
   NodeHandlers.newConsensusMessage cm protocol this
   = Return (NodeHandlers.ConsensusEngine_newConsensusMessage
               (NewConsensusMessage.message cm) node : Delivery)).
Proof.
  intros found gone. subst found.
  unfold NodeHandlers.newBlock, NodeHandlers.newBlockHeight,
    NodeHandlers.newConsensusMessage, NodeHandlers.getRemoteNode.
  split.
  - intros ->. done.
  - intros node ->. done.
Qed.

(** X9. From [Hello] to goodbye.  After a [Hello] of the local chain the
    messages of the peer are handed on with a node that carries the height
    the [Hello] reported; once the protocol has ended (the callback given to
    [onEnd] has run) they throw again.  After a [Hello] of a foreign chain a
    peer that was not registered stays unknown. *)
Theorem messages_between_hello_and_goodbye (msg : Hello.t)
    (protocol : Protocol.t) (this : Node.t) (nb : NewBlock) :
  let peer := Protocol.peerId protocol in
  let node := RemoteNode.mk peer protocol (Hello.height msg) in
  let this' := Node.hello msg protocol this in
  let gone := mkError "Remote node disappeared" in
  (Hello.genesis msg = Node.genesisHash this ->
   NodeHandlers.newBlock nb protocol this'
   = Return (NodeHandlers.Synchronizer_newBlock nb node : Delivery) /\
   NodeHandlers.newBlock nb protocol (Node.goodbye node this')
   = (Throw gone : Completion Delivery)) /\
  (Hello.genesis msg <> Node.genesisHash this ->
   RemoteNodeSet.get peer (Node.remoteNode this) = None ->
   NodeHandlers.newBlock nb protocol this'
   = (Throw gone : Completion Delivery)).
Proof.
  intros peer node this' gone. subst this'. split.
  - intros E. destruct (hello_same_chain msg protocol this E) as [R _].
    unfold NodeHandlers.newBlock, NodeHandlers.getRemoteNode,
      RemoteNodeSet.get.
    split.
    + rewrite R. fold peer. by rewrite lookup_insert_eq.
    + cbn [Node.goodbye Node.update_remoteNode Node.remoteNode].
      rewrite R. unfold RemoteNodeSet.delete.
      cbn [RemoteNode.peerId]. fold peer. by rewrite lookup_delete_eq.
  - intros N Hnone. rewrite (hello_foreign_chain msg protocol this N).
    unfold NodeHandlers.newBlock, NodeHandlers.getRemoteNode.
    cbn [Node.dropPeer Node.call Node.remoteNode]. fold peer.
    by rewrite Hnone.
Qed.

End Dispatch.

(** X10. The handshake timer.  When it fires for a registered peer
    nothing happens; for a peer that is not registered the peer is dropped
    and the remote-node set stays as it is.  Hence a peer that said [Hello]
    on the local chain is not dropped by the timer, and a peer that said
    [Hello] on a foreign chain without being registered is dropped a second
    time when the timer fires. *)
Theorem handshake_timer (msg : Hello.t) (protocol : Protocol.t)
    (this : Node.t) :
  let peer := Protocol.peerId protocol in
  let this' := Node.hello msg protocol this in
  (is_Some (RemoteNodeSet.get peer (Node.remoteNode this)) ->
   NodeHandlers.handshake_timeout protocol this = this) /\
  (RemoteNodeSet.get peer (Node.remoteNode this) = None ->
   Node.remoteNode (NodeHandlers.handshake_timeout protocol this)
   = Node.remoteNode this /\
   Node.effects (NodeHandlers.handshake_timeout protocol this)
   = Node.effects this ++ [Node.NetworkDropPeer peer]) /\
  (Hello.genesis msg = Node.genesisHash this ->
   NodeHandlers.handshake_timeout protocol this' = this') /\
  (Hello.genesis msg <> Node.genesisHash this ->
   RemoteNodeSet.get peer (Node.remoteNode this) = None ->
   Node.effects (NodeHandlers.handshake_timeout protocol this')
   = Node.effects this
       ++ [Node.NetworkDropPeer peer; Node.NetworkDropPeer peer]).
Proof.
  intros peer this'. subst this'.
  unfold NodeHandlers.handshake_timeout. fold peer. split_and!.
  - intros [node ->]. reflexivity.
  - intros ->. done.
  - intros E. destruct (hello_same_chain msg protocol this E) as [R _].
    rewrite R. unfold RemoteNodeSet.get. fold peer.
    by rewrite lookup_insert_eq.
  - intros N Hnone. rewrite (hello_foreign_chain msg protocol this N).
    fold peer. cbn [Node.dropPeer Node.call Node.remoteNode].
    rewrite Hnone. cbn. by rewrite <- app_assoc.
Qed.

(** X11. Registration is undone by removal.  For a peer that was not
    registered, a [Hello] of the local chain followed by the end of its
    protocol, or by [dropRemoteNode], gives back the remote-node set there
    was; [dropRemoteNode] drops the peer from the network as well. *)
Theorem hello_then_removal_restores_the_set (msg : Hello.t)
    (protocol : Protocol.t) (this : Node.t) :
  let peer := Protocol.peerId protocol in
  let node := RemoteNode.mk peer protocol (Hello.height msg) in
  let this' := Node.hello msg protocol this in
  Hello.genesis msg = Node.genesisHash this ->
  RemoteNodeSet.get peer (Node.remoteNode this) = None ->
  Node.remoteNode (Node.goodbye node this') = Node.remoteNode this /\
  Node.remoteNode (Node.dropRemoteNode node this') = Node.remoteNode this /\
  Node.effects (Node.dropRemoteNode node this')
  = Node.effects this' ++ [Node.NetworkDropPeer peer].
Proof.
  intros peer node this' E Hnone. subst this'.
  destruct (hello_same_chain msg protocol this E) as [R _].
  cbn [Node.goodbye Node.dropRemoteNode Node.dropPeer Node.call
       Node.update_remoteNode Node.remoteNode Node.effects].
  rewrite R. unfold RemoteNodeSet.delete. cbn [RemoteNode.peerId].
  fold peer. rewrite delete_insert_eq.
  by rewrite (delete_id (Node.remoteNode this) peer Hnone).
Qed.

(** X12. [dropRemoteNode] removes the node's peer id and nothing else: the
    peer is unknown afterwards, every other peer is as before, the size of
    the set goes down by one when the peer was registered and stays
    otherwise, and the peer is dropped from the network in both cases. *)
Theorem dropRemoteNode_removes_one_peer (node : RemoteNode.t)
    (this : Node.t) :
  let peer := RemoteNode.peerId node in
  let this' := Node.dropRemoteNode node this in
  RemoteNodeSet.get peer (Node.remoteNode this') = None /\
  (forall other : string, other <> peer ->
     RemoteNodeSet.get other (Node.remoteNode this')
     = RemoteNodeSet.get other (Node.remoteNode this)) /\
  (is_Some (RemoteNodeSet.get peer (Node.remoteNode this)) ->
   S (size (Node.remoteNode this')) = size (Node.remoteNode this)) /\
  (RemoteNodeSet.get peer (Node.remoteNode this) = None ->
   Node.remoteNode this' = Node.remoteNode this) /\
  Node.effects this' = Node.effects this ++ [Node.NetworkDropPeer peer].
Proof.
  intros peer this'. subst this'.
  cbn [Node.dropRemoteNode Node.dropPeer Node.call Node.update_remoteNode
       Node.remoteNode Node.effects].
  unfold RemoteNodeSet.get, RemoteNodeSet.delete. fold peer. split_and!.
  - apply lookup_delete_eq.
  - intros other Hne. by apply lookup_delete_ne.
  - intros [n Hn]. rewrite <- (insert_delete_id _ _ _ Hn) at 2.
    by rewrite map_size_insert_None by apply lookup_delete_eq.
  - intros Hnone. by apply delete_id.
  - reflexivity.
Qed.

(** X13. A [Hello] of the local chain adds at most one entry: the set
    grows by one for a peer that was not registered, and keeps its size for
    a registered peer, whose entry is replaced by one with the height just
    reported. *)
Theorem hello_size (msg : Hello.t) (protocol : Protocol.t) (this : Node.t) :
  let peer := Protocol.peerId protocol in
  let this' := Node.hello msg protocol this in
  Hello.genesis msg = Node.genesisHash this ->
  (RemoteNodeSet.get peer (Node.remoteNode this) = None ->
   size (Node.remoteNode this') = S (size (Node.remoteNode this))) /\
  (is_Some (RemoteNodeSet.get peer (Node.remoteNode this)) ->
   size (Node.remoteNode this') = size (Node.remoteNode this)) /\
  RemoteNode.height <$> RemoteNodeSet.get peer (Node.remoteNode this')
  = Some (Hello.height msg).
Proof.
  intros peer this' E. subst this'.
  destruct (hello_same_chain msg protocol this E) as [R _].
  rewrite R. unfold RemoteNodeSet.get. fold peer. split_and!.
  - intros Hnone. by apply map_size_insert_None.
  - intros Hsome. by apply map_size_insert_Some.
  - by rewrite lookup_insert_eq.
Qed.

(** X14. [stop] ends the protocol of every registered node:
    the calls it makes are as many protocol ends as the remote-node set has
    entries, followed by the four stops, and each registered node's
    protocol is among those ended. *)
Theorem stop_ends_every_protocol (this : Node.t) :
  exists ends : list Node.Effect,
    Node.effects (Node.stop this)
    = Node.effects this ++ ends
        ++ [Node.NetworkStop; Node.ConsensusEngineStop;
            Node.SynchronizerStop; Node.ExecutorStop] /\
    length ends = size (Node.remoteNode this) /\
    (forall (peer : string) (node : RemoteNode.t),
       RemoteNodeSet.get peer (Node.remoteNode this) = Some node ->
       Node.ProtocolEnd (Protocol.peerId (RemoteNode.protocol node)) ∈ ends)
    /\
    (forall e : Node.Effect, e ∈ ends ->
       exists (peer : string) (node : RemoteNode.t),
         RemoteNodeSet.get peer (Node.remoteNode this) = Some node /\
         e = Node.ProtocolEnd (Protocol.peerId (RemoteNode.protocol node))).
Proof.
  pose (f := fun node : RemoteNode.t =>
               Node.ProtocolEnd (Protocol.peerId (RemoteNode.protocol node))).
  exists (map f (RemoteNodeSet.nodes (Node.remoteNode this))).
  unfold Node.stop.
  destruct (effects_foldl_call f
              (RemoteNodeSet.nodes (Node.remoteNode this)) this)
    as (E & _ & _).
  subst f. cbv beta zeta in E. cbn [Node.call Node.effects]. rewrite E.
  split_and!.
  - by rewrite <- !app_assoc.
  - unfold RemoteNodeSet.nodes. rewrite length_map, length_fmap.
    apply length_map_to_list.
  - intros peer node Hn. apply list_elem_of_fmap. exists node.
    split; [reflexivity|]. unfold RemoteNodeSet.nodes.
    apply list_elem_of_fmap. exists (peer, node).
    split; [reflexivity|]. by apply elem_of_map_to_list.
  - intros e [node [-> Hin]]%list_elem_of_fmap.
    unfold RemoteNodeSet.nodes in Hin.
    apply list_elem_of_fmap in Hin as [[peer node'] [-> Hin]].
    apply elem_of_map_to_list in Hin. by exists peer, node'.
Qed.

Lemma hello_then_removal_restores_the_set_witness :
  let msg := Hello.mk 9 (Sample.h32 x01) in
  let protocol := Protocol.mk "QmBob" in
  let node := RemoteNode.mk "QmBob" protocol 9 in
  Hello.genesis msg = Node.genesisHash Sample.node0 /\
  RemoteNodeSet.get "QmBob" (Node.remoteNode Sample.node0) = None /\
  Node.remoteNode (Node.goodbye node (Node.hello msg protocol Sample.node0))
  = Node.remoteNode Sample.node0.
Proof.
  split; [reflexivity|]. split; [reflexivity|].
  exact (proj1 (hello_then_removal_restores_the_set
                  (Hello.mk 9 (Sample.h32 x01)) (Protocol.mk "QmBob")
                  Sample.node0 eq_refl eq_refl)).
Defined.

Lemma hello_size_witness :
  let msg := Hello.mk 9 (Sample.h32 x01) in
  Hello.genesis msg = Node.genesisHash Sample.node0 /\
  size (Node.remoteNode (Node.hello msg (Protocol.mk "QmBob") Sample.node0))
  = 2%nat /\
  size (Node.remoteNode (Node.hello msg (Protocol.mk "QmAlice") Sample.node0))
  = 1%nat.
Proof.
  split; [reflexivity|].
  destruct (hello_size (Hello.mk 9 (Sample.h32 x01)) (Protocol.mk "QmBob")
              Sample.node0 eq_refl) as (Hnew & _ & _).
  destruct (hello_size (Hello.mk 9 (Sample.h32 x01)) (Protocol.mk "QmAlice")
              Sample.node0 eq_refl) as (_ & Hold & _).
  split; [exact (Hnew eq_refl)|].
  exact (Hold (ex_intro _ Sample.alice eq_refl)).
Defined.

(** ** The error stream *)

(** X15. Of a run of errors, the network and the peer protocols pass on
    all but those whose message is ["underlying socket has been closed"],
    in the order they came; the synchronizer, the consensus engine and the
    transaction pool pass on every error, that message included. *)
Theorem error_stream (errs : list Error) (this : Node.t) :
  let others :=
    filter (fun e => message e <> "underlying socket has been closed") errs in
  Node.effects (foldl (fun n e => Node.network_onError e n) this errs)
  = Node.effects this ++ map Node.EmitError others /\
  Node.effects (foldl (fun n e => Node.protocol_onError e n) this errs)
  = Node.effects this ++ map Node.EmitError others /\
  Node.effects
    (foldl (fun n e => NodeHandlers.synchronizer_onError e n) this errs)
  = Node.effects this ++ map Node.EmitError errs /\
  Node.effects
    (foldl (fun n e => NodeHandlers.consensusEngine_onError e n) this errs)
  = Node.effects this ++ map Node.EmitError errs /\
  Node.effects
    (foldl (fun n e => NodeHandlers.transactionPool_catch e n) this errs)
  = Node.effects this ++ map Node.EmitError errs.
Proof.
  cbv zeta. split_and!.
  1, 2: revert this; induction errs as [|e errs IH]; intros this;
    [by rewrite app_nil_r|];
    cbn [foldl]; rewrite IH;
    unfold Node.network_onError, Node.protocol_onError;
    destruct (String.eqb_spec (message e)
                "underlying socket has been closed") as [Heq|Hne];
    [by rewrite filter_cons_False by (intros Hn; by apply Hn)
    |rewrite filter_cons_True by exact Hne;
     cbn; by rewrite <- app_assoc].
  all: exact (proj1 (effects_foldl_call Node.EmitError errs this)).
Qed.

(** ** Time-outs with given options *)

(** Each time-out is computed from its own base and its own rate,
    the ones given or else the defaults ([3000] and [1.2] for propose,
    [1000] and [1.2] for prevote and precommit), and from no other
    option. *)
Lemma timeouts_use_their_own_options `{Timeout.Math}
    (options : Timeout.PartialTimeoutOptions) (round : float) :
  let t := Timeout.new options in
  Timeout.propose t round
  = (default 3000 (Timeout.proposeTimeout' options)
     * Timeout.pow
         (default 1.2 (Timeout.proposeTimeoutIncreaseRate' options))
         round)%float /\
  Timeout.prevote t round
  = (default 1000 (Timeout.prevoteTimeout' options)
     * Timeout.pow
         (default 1.2 (Timeout.prevoteTimeoutIncreaseRate' options))
         round)%float /\
  Timeout.precommit t round
  = (default 1000 (Timeout.precommitTimeout' options)
     * Timeout.pow
         (default 1.2 (Timeout.precommitTimeoutIncreaseRate' options))
         round)%float.
Proof. repeat split. Qed.

(** ** The sample application *)

Lemma CliApp_decimal_injective (n m : nat) :
  CliApp.decimal n = CliApp.decimal m -> n = m.
Proof.
  unfold CliApp.decimal. intros E.
  apply (f_equal String.string_of_list_byte) in E.
  rewrite !String.string_of_list_byte_of_string in E.
  apply (f_equal NilEmpty.uint_of_string) in E.
  rewrite !NilEmpty.usu in E. injection E as E.
  apply (f_equal Nat.of_uint) in E. by rewrite !DecimalNat.Unsigned.of_to in E.
Qed.

Section CliAppState.
Context `{Hash.Digest}.
Context {Transaction : Type}.

(** X16. The state hash of the sample application counts transactions:
    after executing a run of transactions the application holds them in
    order, and its state hash is the digest of the decimal digits of their
    number.  Two runs of equal length give the same state hash whatever
    the transactions are, and runs of different length give the digest
    different data. *)
Theorem CliApp_state_hash_counts (app : CliApp.t Transaction)
    (txs txs' : list Transaction) :
  let run := foldl (fun a tx => CliApp.executeTransaction tx a) in
  CliApp.transactions (run app txs) = CliApp.transactions app ++ txs /\
  CliApp.getAppStateHash (run app txs)
  = Hash.fromData
      (CliApp.decimal (length (CliApp.transactions app) + length txs)) /\
  (length txs = length txs' ->
   CliApp.getAppStateHash (run CliApp.new txs)
   = CliApp.getAppStateHash (run CliApp.new txs')) /\
  (length txs <> length txs' ->
   CliApp.decimal (length (CliApp.transactions (run CliApp.new txs)))
   <> CliApp.decimal (length (CliApp.transactions (run CliApp.new txs')))).
Proof.
  intros run.
  assert (R : forall l a,
    CliApp.transactions (run a l) = CliApp.transactions a ++ l).
  { induction l as [|tx l IH]; intros a; subst run; cbn [foldl].
    - by rewrite app_nil_r.
    - rewrite IH. cbn. by rewrite <- app_assoc. }
  split_and!.
  - apply R.
  - unfold CliApp.getAppStateHash. by rewrite R, length_app.
  - intros E. unfold CliApp.getAppStateHash.
    by rewrite !R, !length_app, E.
  - intros N E. apply CliApp_decimal_injective in E.
    rewrite !R in E. cbn in E. by apply N.
Qed.

End CliAppState.

Example CliApp_decimal_of_120 :
  CliApp.decimal 0 = ["0"%byte] /\
  CliApp.decimal 120 = ["1"%byte; "2"%byte; "0"%byte].
Proof. split; reflexivity. Qed.

(** ** Bodies, and the two layouts side by side *)

Section Bodies.
Context `{Hash.Digest}.
Context {TransactionList Consensus ValidatorSet : Type}.
Context `{Serializable TransactionList, Hashable TransactionList,
          !SerializableLaws TransactionList}.
Context `{Serializable Consensus, Hashable Consensus,
          !SerializableLaws Consensus}.
Context `{Serializable ValidatorSet, Hashable ValidatorSet}.

(** X17. A body of [block.ts] that is serialized and deserialized comes
    back equal; its bytes are those of the transaction list followed by
    those of the consensus. *)
Theorem Blocks_BlockBody_round_trip
    (body : Blocks.BlockBody TransactionList Consensus) (rest : Buffer) :
  well_formed (Blocks.transactionList body) ->
  well_formed (Blocks.lastBlockConsensus body) ->
  serialize body
  = serialize (Blocks.transactionList body)
      ++ serialize (Blocks.lastBlockConsensus body) /\
  Blocks.BlockBody_deserialize (serialize body ++ rest) = Some (body, rest).
Proof.
  intros Ht Hc. split.
  - unfold serialize at 1.
    cbn [serialize_to Blocks.BlockBody_serializable].
    by rewrite Blocks_BlockBody_serialize_spec.
  - by apply Blocks_BlockBody_deserialize_serialize.
Qed.

(** X18. [block.ts] accepts whatever the earlier layout accepts.  For one
    header, transaction list and consensus: when [Block.validate] of the
    earlier layout succeeds, so does [Block.validate] of [block.ts]; and
    when [Block.validate] of [block.ts] throws, the earlier layout throws
    the same error. *)
Theorem block_ts_accepts_what_the_earlier_layout_accepts
    (header : BlockHeader.t) (transactions : TransactionList)
    (consensus : Consensus) (validators : ValidatorSet) :
  let b := Blocks.Block_new header
             (Blocks.mkBlockBody transactions consensus) in
  let b' := LegacyBlocks.Block_new header
              (LegacyBlocks.mkBlockBody transactions consensus validators) in
  (LegacyBlocks.Block_validate b' = Return tt ->
   Blocks.Block_validate b = Return tt) /\
  (forall e : Error, Blocks.Block_validate b = Throw e ->
                     LegacyBlocks.Block_validate b' = Throw e).
Proof.
  intros b b'. subst b b'.
  unfold Blocks.Block_validate, Blocks.BlockBody_validate,
    LegacyBlocks.Block_validate.
  cbn [Blocks.header Blocks.body Blocks.Block_new Blocks.transactionList
       Blocks.lastBlockConsensus LegacyBlocks.header LegacyBlocks.body
       LegacyBlocks.Block_new LegacyBlocks.transactionList
       LegacyBlocks.lastBlockConsensus LegacyBlocks.nextValidatorSet].
  destruct (negb (Hash.equals (BlockHeader.transactionRoot header) _));
    [split; [discriminate|done]|].
  destruct (negb (Hash.equals (BlockHeader.lastBlockConsensusRoot header) _));
    [split; [discriminate|done]|].
  split; [done|discriminate].
Qed.

End Bodies.

Lemma Blocks_BlockBody_round_trip_witness :
  @Blocks.BlockBody_deserialize byte byte Sample.byte_serializable
    Sample.byte_serializable
    (@serialize _
       (@Blocks.BlockBody_serializable byte byte Sample.byte_serializable
          Sample.byte_serializable) (Blocks.mkBlockBody x2a x07) ++ [xff])
  = Some (Blocks.mkBlockBody x2a x07, [xff]).
Proof.
  exact (proj2 (@Blocks_BlockBody_round_trip byte byte
                  Sample.byte_serializable Sample_byte_laws
                  Sample.byte_serializable Sample_byte_laws
                  (Blocks.mkBlockBody x2a x07) [xff] I I)).
Defined.
